(** * sncosmo.utils.extinction: the CCM extinction curve

    A shallow embedding of [extinction_ratio_ccm]
    (src/sncosmo/utils/extinction.py) over binary64 floating-point numbers
    (Rocq's primitive floats, which are the IEEE 754 doubles NumPy and Python
    compute with), followed by the properties of the function.

    Layout:
    - [Py]: exceptions and the result of a call;
    - [Np]: the NumPy array operations the function is written with;
    - the coefficient tables and the function itself, statement by statement;
    - the element-wise reading of the array program ([step_a], [step_b]) and
      the piecewise model in the words of the specification ([curve_a],
      [curve_b]);
    - properties: binary64 comparisons and arithmetic, the array operations,
      the passes cell by cell, and the claims C1-C10.

    NumPy is the one the source was written for: [np.float] is Python's
    [float] (binary64), [np.empty] returns uninitialised memory, and
    [np.polyval] is Horner's rule from the highest degree down. *)

From Stdlib Require Import Floats ZArith List String Ascii Bool Lia.
Import ListNotations.

(* Decimal literals denote the nearest binary64 value, as in Python. *)
Set Warnings "-inexact-float".

Local Open Scope float_scope.

(** ** Python values and exceptions *)

Module Py.

Inductive exn : Type :=
| ValueError (msg : string)
| IndexError.

(** A call either returns a value or raises; nothing is returned on a raise. *)
Inductive result (A : Type) : Type :=
| Return (v : A)
| Raise (e : exn).
Arguments Return {A} v.
Arguments Raise {A} e.

Definition bind {A B} (r : result A) (k : A -> result B) : result B :=
  match r with
  | Return v => k v
  | Raise e => Raise e
  end.

(** The [wavelength] argument: "float or list_like". A number; a flat
    sequence of numbers; or an input of two or more dimensions (a rectangular
    nested list, an ndarray), given by its shape [d0 :: d1 :: dims] and its
    elements in row-major order, which are what [np.asarray] and [.ravel()]
    make of it. *)
Inductive array_like : Type :=
| PyFloat (w : float)
| PyList (ws : list float)
| PyNested (d0 d1 : nat) (dims : list nat) (data : list float).

(** The returned object: "float or ndarray". *)
Inductive value : Type :=
| Scalar (v : float)
| Array (vs : list float).

(** What the function takes from its runtime and cannot be computed here:
    the C library's [pow] behind [**], and [repr] behind the [{0!r}] format. *)
Record runtime : Type := {
  power : float -> float -> float;
  repr : string -> string
}.

(** The contents of the memory that [np.empty] hands out, cell by cell, for
    the two buffers the function allocates. *)
Record memory : Type := {
  cells_a : nat -> float;
  cells_b : nat -> float
}.

End Py.
Import Py.

Declare Scope py_scope.
Delimit Scope py_scope with py.
Notation "x <- r ;; k" := (bind r (fun x => k))
  (at level 61, r at next level, right associativity) : py_scope.
Notation "' p <- r ;; k" := (bind r (fun x => let p := x in k))
  (at level 61, p pattern, r at next level, right associativity) : py_scope.
Local Open Scope py_scope.

(** ** NumPy operations on flat arrays *)

Module Np.

(** [np.asarray(wavelength)], seen through [.ndim] and [.ravel()]. *)
Record ndarray : Type := { ndim : nat; ravel : list float }.

Definition asarray (v : array_like) : ndarray :=
  match v with
  | PyFloat w => {| ndim := 0; ravel := [w] |}
  | PyList ws => {| ndim := 1; ravel := ws |}
  | PyNested _ _ dims data => {| ndim := 2 + List.length dims; ravel := data |}
  end.

(** [np.empty(shape)]: a buffer of uninitialised cells. *)
Definition empty (cells : nat -> float) (n : nat) : list float :=
  map cells (seq 0 n).

(** [m.any()]. *)
Definition any (m : list bool) : bool := existsb (fun t => t) m.

(** Element-wise combination of two arrays of one shape. *)
Fixpoint map2 {A B C} (f : A -> B -> C) (u : list A) (v : list B) : list C :=
  match u, v with
  | p :: u', q :: v' => f p q :: map2 f u' v'
  | _, _ => []
  end.

(** Comparisons of an array with a scalar, and [&], [|] on masks. *)
Definition lt (x : list float) (c : float) : list bool := map (fun v => v <? c) x.
Definition gt (x : list float) (c : float) : list bool := map (fun v => c <? v) x.
Definition ge (x : list float) (c : float) : list bool := map (fun v => c <=? v) x.
Definition and_ (m n : list bool) : list bool := map2 andb m n.
Definition or_ (m n : list bool) : list bool := map2 orb m n.

(** [x[idx]] for a boolean mask: the selected elements, in order. *)
Fixpoint getmask (x : list float) (idx : list bool) : list float :=
  match x, idx with
  | v :: x', true :: idx' => v :: getmask x' idx'
  | _ :: x', false :: idx' => getmask x' idx'
  | _, _ => []
  end.

(** [a[idx] = v]: the values of [v] go, in order, to the selected cells. *)
Fixpoint setmask (a : list float) (idx : list bool) (v : list float) : list float :=
  match a, idx with
  | p :: a', true :: idx' =>
      match v with
      | q :: v' => q :: setmask a' idx' v'
      | [] => p :: setmask a' idx' []
      end
  | p :: a', false :: idx' => p :: setmask a' idx' v
  | _, _ => a
  end.

(** [np.flipud] of a one-dimensional array. *)
Definition flipud (c : list float) : list float := rev c.

(** [np.polyval(p, x)]:
    [y = zeros_like(x); for pv in p: y = y * x + pv; return y]. *)
Definition zeros_like (x : list float) : list float := map (fun _ => 0) x.

Definition polyval (p : list float) (x : list float) : list float :=
  fold_left (fun y pv => map2 (fun yi xi => yi * xi + pv) y x) p (zeros_like x).

End Np.

(** ** The module *)

(** Optical/NIR coefficients from Cardelli (1989). *)
Definition c1_ccm : list float :=
  [1.0; 0.17699; -0.50447; -0.02427; 0.72085; 0.01979; -0.77530; 0.32999].
Definition c2_ccm : list float :=
  [0.0; 1.41338; 2.28305; 1.07233; -5.38434; -0.62251; 5.30260; -2.09002].

(** Optical/NIR coefficients from O'Donnell (1994). *)
Definition c1_odonnell : list float :=
  [1.0; 0.104; -0.609; 0.701; 1.137; -1.718; -0.827; 1.647; -0.505].
Definition c2_odonnell : list float :=
  [0.0; 1.952; 2.908; -3.989; -7.985; 11.102; 5.491; -10.805; 3.347].

(** Far-UV coefficients (the local [c1], [c2] of the last branch). *)
Definition c1_fuv : list float := [-1.073; -0.628; 0.137; -0.070].
Definition c2_fuv : list float := [13.670; 4.257; -0.420; 0.374].

Definition range_message : string :=
  "extinction only defined in wavelength range [909.091, 33333.3].".

Definition coeffs_message (rt : runtime) (optical_coeffs : string) : string :=
  "Unrecognized optical_coeffs: " ++ repr rt optical_coeffs.

Definition default_r_v : float := 3.1.
Definition default_optical_coeffs : string := "odonnell".

Section Extinction.

Variable rt : runtime.
Variable mem : memory.

Notation "u ** v" := (power rt u v) (at level 30, right associativity).

(** The selection of the optical tables (lines 127-133). *)
Definition select_coeffs (optical_coeffs : string)
  : result (list float * list float) :=
  if String.eqb optical_coeffs "odonnell" then Return (c1_odonnell, c2_odonnell)
  else if String.eqb optical_coeffs "ccm" then Return (c1_ccm, c2_ccm)
  else Raise (ValueError (coeffs_message rt optical_coeffs)).

(** The five masked passes over the buffers [a] and [b], in the order of
    the source; each takes the buffers as the previous one left them. *)

(** Infrared (lines 116-120). *)
Definition infrared (x : list float) (ab : list float * list float)
  : list float * list float :=
  let '(a, b) := ab in
  let idx := Np.lt x 1.1 in
  if Np.any idx then
    (Np.setmask a idx (map (fun v => 0.574 * v ** 1.61) (Np.getmask x idx)),
     Np.setmask b idx (map (fun v => -0.527 * v ** 1.61) (Np.getmask x idx)))
  else (a, b).

(** Optical/NIR (lines 122-138). *)
Definition optical (x : list float) (optical_coeffs : string)
    (ab : list float * list float) : result (list float * list float) :=
  let '(a, b) := ab in
  let idx := Np.and_ (Np.ge x 1.1) (Np.lt x 3.3) in
  if Np.any idx then
    let xp := map (fun v => v - 1.82) (Np.getmask x idx) in
    '(c1, c2) <- select_coeffs optical_coeffs ;;
    Return (Np.setmask a idx (Np.polyval (Np.flipud c1) xp),
            Np.setmask b idx (Np.polyval (Np.flipud c2) xp))
  else Return (a, b).

(** Mid-UV (lines 140-145). *)
Definition mid_uv (x : list float) (ab : list float * list float)
  : list float * list float :=
  let '(a, b) := ab in
  let idx := Np.and_ (Np.ge x 3.3) (Np.lt x 8) in
  if Np.any idx then
    let xp := Np.getmask x idx in
    (Np.setmask a idx
       (map (fun v => 1.752 - 0.316 * v - 0.104 / ((v - 4.67) ** 2 + 0.341)) xp),
     Np.setmask b idx
       (map (fun v => -3.090 + 1.825 * v + 1.206 / ((v - 4.67) ** 2 + 0.263)) xp))
  else (a, b).

(** The [+=] pass over 5.9 < x < 8 (lines 147-151). *)
Definition mid_uv_correction (x : list float) (ab : list float * list float)
  : list float * list float :=
  let '(a, b) := ab in
  let idx := Np.and_ (Np.gt x 5.9) (Np.lt x 8) in
  if Np.any idx then
    let xp := map (fun v => v - 5.9) (Np.getmask x idx) in
    (Np.setmask a idx
       (Np.map2 add (Np.getmask a idx)
          (map (fun v => -0.04473 * v ** 2 - 0.009779 * v ** 3) xp)),
     Np.setmask b idx
       (Np.map2 add (Np.getmask b idx)
          (map (fun v => 0.2130 * v ** 2 + 0.1207 * v ** 3) xp)))
  else (a, b).

(** Far-UV (lines 153-160). *)
Definition far_uv (x : list float) (ab : list float * list float)
  : list float * list float :=
  let '(a, b) := ab in
  let idx := Np.ge x 8 in
  if Np.any idx then
    let xp := map (fun v => v - 8) (Np.getmask x idx) in
    (Np.setmask a idx (Np.polyval (Np.flipud c1_fuv) xp),
     Np.setmask b idx (Np.polyval (Np.flipud c2_fuv) xp))
  else (a, b).

(** Lines 113-160: the buffers [a] and [b] after the passes. *)
Definition coefficients (x : list float) (optical_coeffs : string)
  : result (list float * list float) :=
  let a := Np.empty (cells_a mem) (List.length x) in
  let b := Np.empty (cells_b mem) (List.length x) in
  let ab := infrared x (a, b) in
  ab <- optical x optical_coeffs ab ;;
  let ab := mid_uv x ab in
  let ab := mid_uv_correction x ab in
  Return (far_uv x ab).

(** The function (lines 105-165). *)
Definition extinction_ratio_ccm
    (wavelength : array_like) (r_v : float) (optical_coeffs : string)
  : result value :=
  let wavelength := Np.asarray wavelength in
  let in_ndim := Np.ndim wavelength in
  let x := map (fun w => 1e4 / w) (Np.ravel wavelength) in   (* Inverse microns. *)
  if Np.any (Np.or_ (Np.lt x 0.3) (Np.gt x 11)) then
    Raise (ValueError range_message)
  else
    '(a, b) <- coefficients x optical_coeffs ;;
    let extinction_ratio := Np.map2 (fun ai bi => ai * r_v + bi) a b in
    if Nat.eqb in_ndim 0 then
      match extinction_ratio with
      | v :: _ => Return (Scalar v)
      | [] => Raise IndexError
      end
    else Return (Array extinction_ratio).

End Extinction.


(** ** Element-wise reading of the array program *)

(** Facts about binary64 comparisons are stated on [SFcompare], to which the
    primitive comparisons are specified to reduce. *)
Module F64.

Definition cmp (x y : float) : option comparison :=
  SFcompare (Prim2SF x) (Prim2SF y).

(** [x != x], true exactly of NaN. *)
Definition is_nan (x : float) : bool := negb (x =? x).

Definition neg_zero : float := Eval cbv in (- 0)%float.

(** [u] is a number or an infinity of sign [s] (true: negative). *)
Definition signed (s : bool) (u : spec_float) : Prop :=
  match u with
  | S754_nan => False
  | S754_zero t | S754_infinity t | S754_finite t _ _ => t = s
  end.

End F64.

(** The masks of the function (lines 109, 117, 123, 141, 147, 154), at one
    element [x]. *)
Definition out_of_range (x : float) : bool := (x <? 0.3) || (11 <? x).
Definition in_infrared (x : float) : bool := x <? 1.1.
Definition in_optical (x : float) : bool := (1.1 <=? x) && (x <? 3.3).
Definition in_mid_uv (x : float) : bool := (3.3 <=? x) && (x <? 8).
Definition in_correction (x : float) : bool := (5.9 <? x) && (x <? 8).
Definition in_far_uv (x : float) : bool := 8 <=? x.

(** The seven comparisons the masks are built from. *)
Definition comparisons (x : float) : bool * bool * bool * bool * bool * bool * bool :=
  (x <? 1.1, 1.1 <=? x, x <? 3.3, 3.3 <=? x, x <? 8, 8 <=? x, 5.9 <? x).

(** The validated domain of the specification: [0.3 <= x <= 11.0]. *)
Definition in_domain (x : float) : bool := (0.3 <=? x) && (x <=? 11).

(** [np.polyval] at one point: highest degree first. *)
Definition polyval1 (p : list float) (v : float) : float :=
  fold_left (fun y pv => y * v + pv) p 0.

(** Horner evaluation of a table stored lowest degree first: index 0 is the
    constant term, [c0 + v*(c1 + v*(c2 + ...))]. *)
Fixpoint horner (c : list float) (v : float) : float :=
  match c with
  | [] => 0
  | c0 :: c' => horner c' v * v + c0
  end.

(** Indexed map, for buffers whose cell [i] meets element [i] of [x]. *)
Fixpoint imap {A B} (f : nat -> A -> B) (k : nat) (l : list A) : list B :=
  match l with
  | [] => []
  | v :: l' => f k v :: imap f (S k) l'
  end.

(** One masked pass over a buffer: where [p] selects the element of [x], the
    cell becomes [h] of its old content and the element; elsewhere it stays. *)
Definition masked (p : float -> bool) (h : float -> float -> float)
    (a x : list float) : list float :=
  Np.map2 (fun ai v => if p v then h ai v else ai) a x.

Section Elementwise.

Variable rt : runtime.

Notation "u ** v" := (power rt u v) (at level 30, right associativity).

(** The right-hand sides of the assignments. *)
Definition ir_a (x : float) : float := 0.574 * x ** 1.61.
Definition ir_b (x : float) : float := -0.527 * x ** 1.61.
Definition mid_uv_a (x : float) : float :=
  1.752 - 0.316 * x - 0.104 / ((x - 4.67) ** 2 + 0.341).
Definition mid_uv_b (x : float) : float :=
  -3.090 + 1.825 * x + 1.206 / ((x - 4.67) ** 2 + 0.263).
Definition corr_a (xp : float) : float := -0.04473 * xp ** 2 - 0.009779 * xp ** 3.
Definition corr_b (xp : float) : float := 0.2130 * xp ** 2 + 0.1207 * xp ** 3.

(** What the five passes do to one cell that starts as [a0] and sits at
    element [x], with [c1] the optical table in use: each pass in turn either
    overwrites (or, for the correction, increments) the cell or leaves it. *)
Definition step_a (c1 : list float) (a0 x : float) : float :=
  let a := if in_infrared x then ir_a x else a0 in
  let a := if in_optical x then polyval1 (Np.flipud c1) (x - 1.82) else a in
  let a := if in_mid_uv x then mid_uv_a x else a in
  let a := if in_correction x then a + corr_a (x - 5.9) else a in
  if in_far_uv x then polyval1 (Np.flipud c1_fuv) (x - 8) else a.

Definition step_b (c2 : list float) (b0 x : float) : float :=
  let b := if in_infrared x then ir_b x else b0 in
  let b := if in_optical x then polyval1 (Np.flipud c2) (x - 1.82) else b in
  let b := if in_mid_uv x then mid_uv_b x else b in
  let b := if in_correction x then b + corr_b (x - 5.9) else b in
  if in_far_uv x then polyval1 (Np.flipud c2_fuv) (x - 8) else b.

(** The piecewise model as the specification words it: one region per
    element, chosen by [x] alone, polynomials lowest degree first, and the
    5.9-8 correction added on top of the mid-UV value. *)
Inductive region : Type := Infrared | Optical | MidUV | FarUV.

Definition region_of (x : float) : region :=
  if x <? 1.1 then Infrared
  else if x <? 3.3 then Optical
  else if x <? 8 then MidUV
  else FarUV.

Definition curve_a (c1 : list float) (x : float) : float :=
  match region_of x with
  | Infrared => ir_a x
  | Optical => horner c1 (x - 1.82)
  | MidUV => if 5.9 <? x then mid_uv_a x + corr_a (x - 5.9) else mid_uv_a x
  | FarUV => horner c1_fuv (x - 8)
  end.

Definition curve_b (c2 : list float) (x : float) : float :=
  match region_of x with
  | Infrared => ir_b x
  | Optical => horner c2 (x - 1.82)
  | MidUV => if 5.9 <? x then mid_uv_b x + corr_b (x - 5.9) else mid_uv_b x
  | FarUV => horner c2_fuv (x - 8)
  end.

End Elementwise.

Section Cells.

Variable rt : runtime.
Variable mem : memory.

(** The buffers after the passes: cell [i] holds [step_a] (resp. [step_b])
    of the uninitialised content of the cell and element [i] of [x]. *)
Definition cell_a (c1 : list float) (i : nat) (v : float) : float :=
  step_a rt c1 (cells_a mem i) v.
Definition cell_b (c2 : list float) (i : nat) (v : float) : float :=
  step_b rt c2 (cells_b mem i) v.

Definition cells_after_a (c1 : list float) (x : list float) : list float :=
  imap (cell_a c1) 0 x.
Definition cells_after_b (c2 : list float) (x : list float) : list float :=
  imap (cell_b c2) 0 x.

(** Line 162 at cell [i]. *)
Definition element_ratio (c : list float * list float) (r_v : float)
    (i : nat) (v : float) : float :=
  cell_a (fst c) i v * r_v + cell_b (snd c) i v.

Definition ratios (c : list float * list float) (r_v : float)
    (x : list float) : list float :=
  imap (element_ratio c r_v) 0 x.

End Cells.

(** The same without the buffers: the value of the piecewise model. *)
Definition curve_ratio (rt : runtime) (c : list float * list float)
    (r_v : float) (x : float) : float :=
  curve_a rt (fst c) x * r_v + curve_b rt (snd c) x.

(** The tables a recognised selector stands for. *)
Definition tables (optical_coeffs : string) : option (list float * list float) :=
  if String.eqb optical_coeffs "odonnell" then Some (c1_odonnell, c2_odonnell)
  else if String.eqb optical_coeffs "ccm" then Some (c1_ccm, c2_ccm)
  else None.

(** The inverse microns of the elements of an input, and the shape of the
    returned object for that input. *)
Definition inverse_microns (wavelength : array_like) : list float :=
  map (fun w => 1e4 / w) (Np.ravel (Np.asarray wavelength)).

(** The validated domain as a property of an input. *)
Definition in_domain_input (wavelength : array_like) : Prop :=
  Forall (fun x => in_domain x = true) (inverse_microns wavelength).

Definition shaped_like (wavelength : array_like) (vs : list float) : value :=
  match wavelength with
  | PyFloat _ => Scalar (hd 0 vs)
  | PyList _ | PyNested _ _ _ _ => Array vs
  end.



(** The four base masks of the source ([idx] at lines 117, 123, 141 and
    154), the mask of the [+=] pass (line 147), and the mask pattern that
    belongs to a region. *)
Definition base_masks (x : list float) : list (list bool) :=
  [ Np.lt x 1.1;
    Np.and_ (Np.ge x 1.1) (Np.lt x 3.3);
    Np.and_ (Np.ge x 3.3) (Np.lt x 8);
    Np.ge x 8 ].

Definition correction_mask (x : list float) : list bool :=
  Np.and_ (Np.gt x 5.9) (Np.lt x 8).

Definition one_hot (r : region) : list bool :=
  match r with
  | Infrared => [true; false; false; false]
  | Optical => [false; true; false; false]
  | MidUV => [false; false; true; false]
  | FarUV => [false; false; false; true]
  end.

(** The tables the passes work with under a selector: the selected ones, or
    none when the selector is not recognised (the optical pass then raises if
    it runs at all). *)
Definition tables_in_use (optical_coeffs : string) : list float * list float :=
  match tables optical_coeffs with
  | Some c => c
  | None => ([], [])
  end.

(** The elements of a returned object. *)
Definition values (out : value) : list float :=
  match out with
  | Scalar v => [v]
  | Array vs => vs
  end.

(** Concrete runtimes and memories, for evaluating the function on inputs
    whose result does not depend on them. *)
Definition mem_zeros : memory := {| cells_a := fun _ => 0; cells_b := fun _ => 0 |}.
Definition mem_ones : memory := {| cells_a := fun _ => 1; cells_b := fun _ => 1 |}.

(** A runtime whose [**] squares and cubes by multiplication and knows no
    other exponent; it stands in for the C library on inputs that reach [**]
    only with the exponents 2 and 3. *)
Definition rt_mul : runtime :=
  {| power := fun u v =>
       if v =? 2 then u * u else if v =? 3 then u * u * u else nan;
     repr := fun s => s |}.


(** ** docs/conf.py

    The Sphinx configuration: a script run top to bottom in the namespace
    that [from astropy.sphinx.conf import *] fills. What it imports and what
    it asks the interpreter are the fields of [inherited]; the names it
    reads ([intersphinx_mapping], [exclude_patterns], [rst_epilog],
    [extensions]) are taken to be bound there. *)

Module Conf.
Local Open Scope string_scope.

(** [s.split(sep, 1)] for a one-character separator: the text before the
    first separator and, when there is one, the text after it. *)
Fixpoint split1 (sep : ascii) (s : string) : list string :=
  match s with
  | EmptyString => [EmptyString]
  | String ch s' =>
      if Ascii.eqb ch sep then [EmptyString; s']
      else match split1 sep s' with
           | h :: t => String ch h :: t
           | [] => [String ch EmptyString]
           end
  end.

(** [l[0]]. *)
Definition item0 (l : list string) : result string :=
  match l with
  | h :: _ => Return h
  | [] => Raise IndexError
  end.

(** [l.remove(x)]: the first occurrence goes; without one, [ValueError]. *)
Fixpoint list_remove (x : string) (l : list string) : result (list string) :=
  match l with
  | [] => Raise (ValueError "list.remove(x): x not in list")
  | y :: l' =>
      if String.eqb y x then Return l'
      else l'' <- list_remove x l' ;; Return (y :: l'')
  end.

(** [d[k] = v] on a dict kept in insertion order. *)
Fixpoint dict_set {V} (k : string) (v : V) (d : list (string * V))
  : list (string * V) :=
  match d with
  | [] => [(k, v)]
  | (k', v') :: d' =>
      if String.eqb k' k then (k, v) :: d' else (k', v') :: dict_set k v d'
  end.

(** [s.lower()] on ASCII text. *)
Definition lower_ascii (ch : ascii) : ascii :=
  let n := nat_of_ascii ch in
  if (65 <=? n)%nat && (n <=? 90)%nat then ascii_of_nat (n + 32) else ch.

Fixpoint lower (s : string) : string :=
  match s with
  | EmptyString => EmptyString
  | String ch s' => String (lower_ascii ch) (lower s')
  end.

(** What [from astropy.sphinx.conf import *] leaves in the namespace, as far
    as the file reads it, and what the file takes from the interpreter. *)
Record inherited : Type := {
  intersphinx_mapping : list (string * (string * option string));
  exclude_patterns : list string;
  rst_epilog : string;
  extensions : list string;
  templates_path : option (list string);   (* None: not in locals() *)
  sys_path : list string;
  abspath : string -> string;               (* os.path.abspath *)
  sncosmo_version : string                  (* sncosmo.__version__ *)
}.

(** The namespace after the file has run. *)
Record config : Type := {
  cfg_intersphinx_mapping : list (string * (string * option string));
  cfg_exclude_patterns : list string;
  cfg_rst_epilog : string;
  project : string;
  author : string;
  copyright : string;
  version : string;
  release : string;
  cfg_sys_path : list string;
  cfg_extensions : list string;
  html_theme_options : list (string * string);
  html_sidebars : list (string * list string);
  html_favicon : string;
  html_title : string;
  htmlhelp_basename : string;
  cfg_templates_path : list string;
  html_static_path : list string;
  html_style : string;
  latex_documents : list (string * string * string * string * string);
  man_pages : list (string * string * string * list string * nat)
}.

Definition newline : string := String (ascii_of_nat 10) EmptyString.

(** The file, top to bottom (docs/conf.py, lines 29-152). *)
Definition conf (env : inherited) : result config :=
  let intersphinx_mapping :=
    dict_set "astropy" ("http://docs.astropy.org/en/stable/", None)
      (intersphinx_mapping env) in
  let exclude_patterns := (exclude_patterns env ++ ["_templates"])%list in
  let rst_epilog := rst_epilog env ++ newline in
  let project := "sncosmo" in
  let author := "Kyle Barbary and contributors" in
  let copyright := "2013, " ++ author in
  version <- item0 (split1 "-" (sncosmo_version env)) ;;
  let release := sncosmo_version env in
  let sys_path := (sys_path env ++ [abspath env "ext"])%list in
  extensions <- list_remove "sphinx.ext.viewcode" (extensions env) ;;
  let extensions := (extensions ++ ["viewcode"])%list in
  let html_theme_options :=
    [("logotext1", "sn"); ("logotext2", "cosmo"); ("logotext3", "")] in
  let html_sidebars := [("**", ["globaltoc.html"])] in
  let html_favicon := "sncosmo_logo_32.ico" in
  let html_title := project ++ " v" ++ release in
  let htmlhelp_basename := project ++ "doc" in
  let templates_path :=
    match templates_path env with
    | None => []
    | Some p => p
    end in
  let templates_path := (templates_path ++ ["_templates"])%list in
  let html_static_path := ["_static"] in
  let html_style := "sncosmo.css" in
  let latex_documents :=
    [("index", project ++ ".tex", project ++ " Documentation", author, "manual")] in
  let man_pages :=
    [("index", lower project, project ++ " Documentation", [author], 1%nat)] in
  Return {|
    cfg_intersphinx_mapping := intersphinx_mapping;
    cfg_exclude_patterns := exclude_patterns;
    cfg_rst_epilog := rst_epilog;
    project := project;
    author := author;
    copyright := copyright;
    version := version;
    release := release;
    cfg_sys_path := sys_path;
    cfg_extensions := extensions;
    html_theme_options := html_theme_options;
    html_sidebars := html_sidebars;
    html_favicon := html_favicon;
    html_title := html_title;
    htmlhelp_basename := htmlhelp_basename;
    cfg_templates_path := templates_path;
    html_static_path := html_static_path;
    html_style := html_style;
    latex_documents := latex_documents;
    man_pages := man_pages
  |}.

(** The namespace a second run of the file would import: the lists and the
    dict of [astropy.sphinx.conf] are the objects the first run changed in
    place; strings are rebound, not changed. *)
Definition second_import (env : inherited) (cfg : config) : inherited := {|
  intersphinx_mapping := cfg_intersphinx_mapping cfg;
  exclude_patterns := cfg_exclude_patterns cfg;
  rst_epilog := rst_epilog env;
  extensions := cfg_extensions cfg;
  templates_path :=
    match templates_path env with
    | Some _ => Some (cfg_templates_path cfg)
    | None => None
    end;
  sys_path := cfg_sys_path cfg;
  abspath := abspath env;
  sncosmo_version := sncosmo_version env
|}.

Definition stock_viewcode : string := "sphinx.ext.viewcode".

(** An inherited namespace to run the file on. *)
Definition example_env : inherited := {|
  intersphinx_mapping := [];
  exclude_patterns := ["_build"];
  rst_epilog := "";
  extensions := ["sphinx.ext.autodoc"; "sphinx.ext.viewcode"; "numpydoc"];
  templates_path := None;
  sys_path := [];
  abspath := fun p => "/docs/" ++ p;
  sncosmo_version := "0.3.dev-r512"
|}.

End Conf.

(** Whether a selector names one of the two table pairs. *)
Definition recognised (optical_coeffs : string) : bool :=
  match tables optical_coeffs with
  | Some _ => true
  | None => false
  end.

(** * Properties *)

(** ** Binary64 comparisons *)

Module F64Facts.
Import F64.

Lemma ltb_cmp x y : (x <? y) = match cmp x y with Some Lt => true | _ => false end.
Proof. rewrite FloatAxioms.ltb_spec. reflexivity. Qed.

Lemma leb_cmp x y :
  (x <=? y) = match cmp x y with Some (Lt | Eq) => true | _ => false end.
Proof. rewrite FloatAxioms.leb_spec. reflexivity. Qed.

Lemma eqb_cmp x y : (x =? y) = match cmp x y with Some Eq => true | _ => false end.
Proof. rewrite FloatAxioms.eqb_spec. reflexivity. Qed.

Ltac order_cases :=
  repeat match goal with
    | |- context [Z.compare ?a ?b] => destruct (Z.compare_spec a b)
    | H : context [Z.compare ?a ?b] |- _ => destruct (Z.compare_spec a b)
    | |- context [Pos.compare_cont Eq ?a ?b] =>
        change (Pos.compare_cont Eq a b) with (Pos.compare a b);
        destruct (Pos.compare_spec a b)
    | H : context [Pos.compare_cont Eq ?a ?b] |- _ =>
        change (Pos.compare_cont Eq a b) with (Pos.compare a b) in H;
        destruct (Pos.compare_spec a b)
    end.

Ltac three_floats u v w :=
  destruct u as [[]|[]| |[] ? ?], v as [[]|[]| |[] ? ?], w as [[]|[]| |[] ? ?];
  cbn; try congruence; intros;
  order_cases; cbn in *; try congruence; try lia.

Lemma SFcompare_antisym u v :
  SFcompare v u = option_map CompOpp (SFcompare u v).
Proof.
  destruct u as [[]|[]| |[] m1 e1], v as [[]|[]| |[] m2 e2]; cbn; try reflexivity;
    order_cases; cbn; try reflexivity; try lia.
Qed.

Lemma SFcompare_lt_trans u v w :
  SFcompare u v = Some Lt -> SFcompare v w = Some Lt -> SFcompare u w = Some Lt.
Proof. three_floats u v w. Qed.

Lemma SFcompare_eq_lt_trans u v w :
  SFcompare u v = Some Eq -> SFcompare v w = Some Lt -> SFcompare u w = Some Lt.
Proof. three_floats u v w. Qed.

Lemma SFcompare_lt_eq_trans u v w :
  SFcompare u v = Some Lt -> SFcompare v w = Some Eq -> SFcompare u w = Some Lt.
Proof. three_floats u v w. Qed.

Lemma SFcompare_refl u : u <> S754_nan -> SFcompare u u = Some Eq.
Proof.
  destruct u as [[]|[]| |[] m e]; cbn; try congruence; intros _;
    rewrite Z.compare_refl;
    change (Pos.compare_cont Eq m m) with (Pos.compare m m);
    rewrite Pos.compare_refl; reflexivity.
Qed.

Lemma SFcompare_none u v :
  SFcompare u v = None <-> u = S754_nan \/ v = S754_nan.
Proof.
  destruct u as [[]|[]| |[] m1 e1], v as [[]|[]| |[] m2 e2]; cbn;
    split; intros H; try discriminate; auto;
    destruct H; discriminate.
Qed.

Lemma is_nan_spec x : is_nan x = true <-> Prim2SF x = S754_nan.
Proof.
  unfold is_nan. rewrite eqb_cmp. unfold cmp. split.
  - intros H. destruct (Prim2SF x) eqn:E; try reflexivity;
      rewrite SFcompare_refl in H by discriminate; discriminate.
  - intros ->. reflexivity.
Qed.

Lemma is_nan_false x : is_nan x = false <-> Prim2SF x <> S754_nan.
Proof.
  rewrite <- is_nan_spec. destruct (is_nan x); split; congruence.
Qed.

(** A comparison that holds has no NaN operand. *)
Lemma cmp_some_not_nan x y c :
  cmp x y = Some c -> is_nan x = false /\ is_nan y = false.
Proof.
  unfold cmp. intros H. rewrite !is_nan_false.
  split; intros E; rewrite E in H; [|destruct (Prim2SF x)]; discriminate.
Qed.

Lemma ltb_not_nan x y : (x <? y) = true -> is_nan x = false /\ is_nan y = false.
Proof.
  rewrite ltb_cmp. destruct (cmp x y) as [c|] eqn:E; [|discriminate].
  intros _. exact (cmp_some_not_nan _ _ _ E).
Qed.

Lemma leb_not_nan x y : (x <=? y) = true -> is_nan x = false /\ is_nan y = false.
Proof.
  rewrite leb_cmp. destruct (cmp x y) as [c|] eqn:E; [|discriminate].
  intros _. exact (cmp_some_not_nan _ _ _ E).
Qed.

Lemma cmp_antisym x y : cmp y x = option_map CompOpp (cmp x y).
Proof. apply SFcompare_antisym. Qed.

(** Without NaN the order is total: [x < y] is the negation of [y <= x]. *)
Lemma ltb_negb_leb x y :
  is_nan x = false -> is_nan y = false -> (x <? y) = negb (y <=? x).
Proof.
  rewrite !is_nan_false. intros Hx Hy.
  rewrite ltb_cmp, leb_cmp, (cmp_antisym x y).
  destruct (cmp x y) as [[]|] eqn:E; try reflexivity.
  apply SFcompare_none in E. tauto.
Qed.

Lemma leb_negb_ltb x y :
  is_nan x = false -> is_nan y = false -> (x <=? y) = negb (y <? x).
Proof.
  intros Hx Hy. rewrite (ltb_negb_leb y x) by assumption.
  now rewrite negb_involutive.
Qed.

Lemma ltb_leb x y : (x <? y) = true -> (x <=? y) = true.
Proof. rewrite ltb_cmp, leb_cmp. now destruct (cmp x y) as [[]|]. Qed.

Lemma ltb_trans x y z : (x <? y) = true -> (y <? z) = true -> (x <? z) = true.
Proof.
  rewrite !ltb_cmp. unfold cmp.
  destruct (SFcompare (Prim2SF x) (Prim2SF y)) as [[]|] eqn:E1; try discriminate.
  destruct (SFcompare (Prim2SF y) (Prim2SF z)) as [[]|] eqn:E2; try discriminate.
  now rewrite (SFcompare_lt_trans _ _ _ E1 E2).
Qed.

Lemma leb_ltb_trans x y z : (x <=? y) = true -> (y <? z) = true -> (x <? z) = true.
Proof.
  rewrite leb_cmp, !ltb_cmp. unfold cmp.
  destruct (SFcompare (Prim2SF x) (Prim2SF y)) as [[]|] eqn:E1; try discriminate;
    destruct (SFcompare (Prim2SF y) (Prim2SF z)) as [[]|] eqn:E2; try discriminate;
    intros _ _.
  - now rewrite (SFcompare_eq_lt_trans _ _ _ E1 E2).
  - now rewrite (SFcompare_lt_trans _ _ _ E1 E2).
Qed.

Lemma ltb_leb_trans x y z : (x <? y) = true -> (y <=? z) = true -> (x <? z) = true.
Proof.
  rewrite leb_cmp, !ltb_cmp. unfold cmp.
  destruct (SFcompare (Prim2SF x) (Prim2SF y)) as [[]|] eqn:E1; try discriminate;
    destruct (SFcompare (Prim2SF y) (Prim2SF z)) as [[]|] eqn:E2; try discriminate;
    intros _ _.
  - now rewrite (SFcompare_lt_eq_trans _ _ _ E1 E2).
  - now rewrite (SFcompare_lt_trans _ _ _ E1 E2).
Qed.

End F64Facts.

(** ** The regions at one element *)

Module Regions.
Import F64 F64Facts.

(** For a number (not NaN) the comparisons take one of five joint values:
    infrared, optical, mid-UV up to 5.9, mid-UV above 5.9, far-UV. *)
Lemma comparisons_cases x :
  is_nan x = false ->
  In (comparisons x)
     [ (true, false, true, false, true, false, false);
       (false, true, true, false, true, false, false);
       (false, true, false, true, true, false, false);
       (false, true, false, true, true, false, true);
       (false, true, false, true, false, true, true) ].
Proof.
  intros Hx. unfold comparisons.
  rewrite (leb_negb_ltb 1.1 x), (leb_negb_ltb 3.3 x), (leb_negb_ltb 8 x)
    by (assumption || reflexivity).
  pose proof (fun H => ltb_trans x 1.1 3.3 H eq_refl) as H13.
  pose proof (fun H => ltb_trans x 3.3 8 H eq_refl) as H38.
  pose proof (fun H => ltb_trans 3.3 5.9 x eq_refl H) as Hr3.
  pose proof (fun H => ltb_leb_trans 5.9 8 x eq_refl H) as Hr8.
  rewrite (leb_negb_ltb 8 x) in Hr8 by (assumption || reflexivity).
  rewrite (ltb_negb_leb 3.3 x) in Hr3 by (assumption || reflexivity).
  pose proof (ltb_leb x 3.3) as H33.
  destruct (x <? 1.1) eqn:E1, (x <? 3.3) eqn:E3, (x <? 8) eqn:E8, (5.9 <? x) eqn:Er;
    cbn; try tauto; exfalso;
    first [ specialize (H13 eq_refl); congruence
          | specialize (H38 eq_refl); congruence
          | specialize (Hr8 eq_refl); discriminate
          | specialize (Hr3 eq_refl); rewrite H33 in Hr3 by reflexivity;
            discriminate ].
Qed.

Ltac by_region x Hx :=
  let H := fresh "H" in
  pose proof (comparisons_cases x Hx) as H; unfold comparisons in H; cbn in H;
  repeat (destruct H as [H|H]; [injection H as ? ? ? ? ? ? ?|]); [..|contradiction];
  repeat match goal with
    | E : _ = (_ <? _) |- _ => rewrite <- E; clear E
    | E : _ = (_ <=? _) |- _ => rewrite <- E; clear E
    end.

End Regions.

(** ** The array operations *)

Module NpFacts.

Lemma map2_length {A B C} (f : A -> B -> C) u v :
  List.length u = List.length v -> List.length (Np.map2 f u v) = List.length v.
Proof.
  revert v; induction u as [|p u IH]; intros [|q v]; cbn; intros E;
    try discriminate; auto.
Qed.

Lemma map2_map_same {A B C D} (f : B -> C -> D) (g : A -> B) (h : A -> C) l :
  Np.map2 f (map g l) (map h l) = map (fun v => f (g v) (h v)) l.
Proof. induction l; cbn; congruence. Qed.

Lemma map2_map_l {A B C} (f : B -> A -> C) (g : A -> B) l :
  Np.map2 f (map g l) l = map (fun v => f (g v) v) l.
Proof. induction l; cbn; congruence. Qed.

Lemma map2_map2 {A B} (f g : B -> A -> B) u l :
  Np.map2 g (Np.map2 f u l) l = Np.map2 (fun p v => g (f p v) v) u l.
Proof.
  revert l; induction u as [|p u IH]; intros [|q l]; cbn; try reflexivity.
  now rewrite IH.
Qed.

Lemma map2_ext_in {A B} (f g : B -> A -> B) u l :
  (forall p v, In v l -> f p v = g p v) -> Np.map2 f u l = Np.map2 g u l.
Proof.
  revert l; induction u as [|p u IH]; intros [|q l] H; cbn; try reflexivity.
  rewrite H by (left; reflexivity). f_equal. apply IH.
  intros; apply H; right; assumption.
Qed.

Lemma map2_id {A B} (f : B -> A -> B) u l :
  List.length u = List.length l ->
  (forall p v, In v l -> f p v = p) -> Np.map2 f u l = u.
Proof.
  revert l; induction u as [|p u IH]; intros [|q l] E H; cbn; try reflexivity;
    try discriminate.
  rewrite H by (left; reflexivity). f_equal. apply IH.
  - now injection E.
  - intros; apply H; right; assumption.
Qed.

Lemma empty_length cells n : List.length (Np.empty cells n) = n.
Proof. unfold Np.empty. now rewrite length_map, length_seq. Qed.

Lemma imap_length {A B} (f : nat -> A -> B) k l :
  List.length (imap f k l) = List.length l.
Proof. revert k; induction l; cbn; intros; congruence. Qed.

Lemma imap_nth_error {A B} (f : nat -> A -> B) k l i :
  nth_error (imap f k l) i = option_map (f (k + i)%nat) (nth_error l i).
Proof.
  revert k i; induction l as [|v l IH]; intros k [|i]; cbn; try reflexivity.
  - now rewrite Nat.add_0_r.
  - rewrite IH. now rewrite Nat.add_succ_r.
Qed.

Lemma imap_ext_in {A B} (f g : nat -> A -> B) k l :
  (forall i v, In v l -> f i v = g i v) -> imap f k l = imap g k l.
Proof.
  revert k; induction l as [|v l IH]; intros k H; cbn; try reflexivity.
  rewrite H by (left; reflexivity). f_equal. apply IH.
  intros; apply H; right; assumption.
Qed.

Lemma imap_const {A B} (f : A -> B) k l : imap (fun _ => f) k l = map f l.
Proof. revert k; induction l; cbn; intros; congruence. Qed.

Lemma map2_imap {A B C D} (h : B -> C -> D) (f : nat -> A -> B)
      (g : nat -> A -> C) k l :
  Np.map2 h (imap f k l) (imap g k l) = imap (fun i v => h (f i v) (g i v)) k l.
Proof. revert k; induction l; cbn; intros; congruence. Qed.

(** A buffer from [np.empty] combined with the elements of [x]. *)
Lemma map2_empty {A B} (f : float -> A -> B) cells (l : list A) :
  Np.map2 f (Np.empty cells (List.length l)) l = imap (fun i v => f (cells i) v) 0%nat l.
Proof.
  unfold Np.empty. generalize 0%nat.
  induction l as [|v l IH]; intros k; cbn; try reflexivity.
  now rewrite IH.
Qed.

Lemma and_map (p q : float -> bool) x :
  Np.and_ (map p x) (map q x) = map (fun v => p v && q v) x.
Proof. apply map2_map_same. Qed.

Lemma or_map (p q : float -> bool) x :
  Np.or_ (map p x) (map q x) = map (fun v => p v || q v) x.
Proof. apply map2_map_same. Qed.

Lemma any_map_true {A} (p : A -> bool) l :
  Np.any (map p l) = true <-> exists v, In v l /\ p v = true.
Proof.
  unfold Np.any. rewrite existsb_exists. split.
  - intros (t & Ht & ->). apply in_map_iff in Ht as (v & E & Hv). eauto.
  - intros (v & Hv & E). exists true. split; [|reflexivity].
    rewrite <- E. now apply in_map.
Qed.

Lemma any_map_false {A} (p : A -> bool) l :
  Np.any (map p l) = false <-> forall v, In v l -> p v = false.
Proof.
  split.
  - intros H v Hv. destruct (p v) eqn:E; [|reflexivity].
    rewrite <- H. symmetry. apply any_map_true. eauto.
  - intros H. destruct (Np.any (map p l)) eqn:E; [|reflexivity].
    apply any_map_true in E as (v & Hv & E). rewrite H in E by assumption.
    discriminate.
Qed.

(** [a[idx] = f(x[idx])] and [a[idx] += f(x[idx])], cell by cell. *)
Lemma setmask_update (p : float -> bool) (g : float -> float -> float)
      (f : float -> float) a x :
  List.length a = List.length x ->
  Np.setmask a (map p x)
    (Np.map2 g (Np.getmask a (map p x)) (map f (Np.getmask x (map p x))))
  = Np.map2 (fun ai v => if p v then g ai (f v) else ai) a x.
Proof.
  revert x; induction a as [|ai a IH]; intros [|v x] E; cbn; try reflexivity;
    try discriminate.
  injection E as E. destruct (p v); cbn; now rewrite IH.
Qed.

Lemma setmask_assign (p : float -> bool) (f : float -> float) a x :
  List.length a = List.length x ->
  Np.setmask a (map p x) (map f (Np.getmask x (map p x)))
  = Np.map2 (fun ai v => if p v then f v else ai) a x.
Proof.
  revert x; induction a as [|ai a IH]; intros [|v x] E; cbn; try reflexivity;
    try discriminate.
  injection E as E. destruct (p v); cbn; now rewrite IH.
Qed.

(** The guard [if idx.any()] only skips a pass that would change nothing. *)
Lemma guarded_pass (p : float -> bool) (h : float -> float -> float) a x u :
  List.length a = List.length x ->
  u = Np.map2 (fun ai v => if p v then h ai v else ai) a x ->
  (if Np.any (map p x) then u else a)
  = Np.map2 (fun ai v => if p v then h ai v else ai) a x.
Proof.
  intros E ->. destruct (Np.any (map p x)) eqn:Hany; [reflexivity|].
  symmetry. apply map2_id; [assumption|].
  intros ai v Hv. now rewrite (proj1 (any_map_false p x) Hany v Hv).
Qed.

(** [np.polyval] works on each element on its own. *)
Lemma polyval_loop p (g : float -> float) x :
  fold_left (fun y pv => Np.map2 (fun yi xi => yi * xi + pv) y x) p (map g x)
  = map (fun v => fold_left (fun y pv => y * v + pv) p (g v)) x.
Proof.
  revert g; induction p as [|pv p IH]; intros g; cbn.
  - reflexivity.
  - rewrite map2_map_l. now rewrite IH.
Qed.

Lemma polyval_map p x : Np.polyval p x = map (polyval1 p) x.
Proof. unfold Np.polyval, Np.zeros_like. apply polyval_loop. Qed.

(** Flipping a table and evaluating highest degree first is evaluating the
    table lowest degree first: index 0 is the constant term. *)
Lemma polyval1_flipud c v : polyval1 (Np.flipud c) v = horner c v.
Proof.
  unfold polyval1, Np.flipud.
  induction c as [|c0 c IH]; cbn; [reflexivity|].
  now rewrite fold_left_app, IH.
Qed.

End NpFacts.

(** ** The passes, cell by cell *)

Module Passes.
Import NpFacts.

Section Passes.

Variable rt : runtime.
Variable mem : memory.

Lemma if_pair {A B} (c : bool) (u u' : A) (v v' : B) :
  (if c then (u, v) else (u', v')) = (if c then u else u', if c then v else v').
Proof. now destruct c. Qed.

Lemma masked_length p h a x :
  List.length a = List.length x -> List.length (masked p h a x) = List.length x.
Proof. apply map2_length. Qed.

Lemma infrared_masked x a b :
  List.length a = List.length x -> List.length b = List.length x ->
  infrared rt x (a, b)
  = (masked in_infrared (fun _ v => ir_a rt v) a x,
     masked in_infrared (fun _ v => ir_b rt v) b x).
Proof.
  intros Ha Hb. unfold infrared, Np.lt.
  rewrite if_pair. f_equal; apply guarded_pass; try assumption;
    now apply setmask_assign.
Qed.

Lemma optical_masked x sel a b :
  List.length a = List.length x -> List.length b = List.length x ->
  optical rt x sel (a, b)
  = if Np.any (map in_optical x) then
      bind (select_coeffs rt sel) (fun c =>
        Return
          (masked in_optical (fun _ v => polyval1 (Np.flipud (fst c)) (v - 1.82)) a x,
           masked in_optical (fun _ v => polyval1 (Np.flipud (snd c)) (v - 1.82)) b x))
    else Return (a, b).
Proof.
  intros Ha Hb. unfold optical, Np.lt, Np.ge. rewrite and_map. cbv zeta.
  change (fun v => (1.1 <=? v) && (v <? 3.3)) with in_optical.
  destruct (Np.any (map in_optical x)); [|reflexivity].
  destruct (select_coeffs rt sel) as [[c1 c2]|e]; cbn [bind fst snd]; [|reflexivity].
  rewrite !polyval_map, !map_map. f_equal. f_equal.
  - now apply (setmask_assign in_optical
                 (fun v => polyval1 (Np.flipud c1) (v - 1.82))).
  - now apply (setmask_assign in_optical
                 (fun v => polyval1 (Np.flipud c2) (v - 1.82))).
Qed.

Lemma mid_uv_masked x a b :
  List.length a = List.length x -> List.length b = List.length x ->
  mid_uv rt x (a, b)
  = (masked in_mid_uv (fun _ v => mid_uv_a rt v) a x,
     masked in_mid_uv (fun _ v => mid_uv_b rt v) b x).
Proof.
  intros Ha Hb. unfold mid_uv, Np.lt, Np.ge. rewrite and_map.
  cbv zeta. rewrite if_pair. f_equal; apply guarded_pass; try assumption;
    now apply setmask_assign.
Qed.

Lemma mid_uv_correction_masked x a b :
  List.length a = List.length x -> List.length b = List.length x ->
  mid_uv_correction rt x (a, b)
  = (masked in_correction (fun ai v => ai + corr_a rt (v - 5.9)) a x,
     masked in_correction (fun bi v => bi + corr_b rt (v - 5.9)) b x).
Proof.
  intros Ha Hb. unfold mid_uv_correction, Np.lt, Np.gt. rewrite and_map.
  cbv zeta. rewrite !map_map, if_pair. f_equal; apply guarded_pass; try assumption.
  - now apply (setmask_update in_correction add (fun v => corr_a rt (v - 5.9))).
  - now apply (setmask_update in_correction add (fun v => corr_b rt (v - 5.9))).
Qed.

Lemma far_uv_masked x a b :
  List.length a = List.length x -> List.length b = List.length x ->
  far_uv x (a, b)
  = (masked in_far_uv (fun _ v => polyval1 (Np.flipud c1_fuv) (v - 8)) a x,
     masked in_far_uv (fun _ v => polyval1 (Np.flipud c2_fuv) (v - 8)) b x).
Proof.
  intros Ha Hb. unfold far_uv, Np.ge.
  cbv zeta. rewrite !polyval_map, !map_map, if_pair.
  f_equal; apply guarded_pass; try assumption.
  - now apply (setmask_assign in_far_uv
                 (fun v => polyval1 (Np.flipud c1_fuv) (v - 8))).
  - now apply (setmask_assign in_far_uv
                 (fun v => polyval1 (Np.flipud c2_fuv) (v - 8))).
Qed.

Ltac lengths :=
  repeat first [ assumption | apply empty_length | apply masked_length ].

Lemma coefficients_elementwise x sel :
  coefficients rt mem x sel
  = if Np.any (map in_optical x) then
      bind (select_coeffs rt sel) (fun c =>
        Return (cells_after_a rt mem (fst c) x, cells_after_b rt mem (snd c) x))
    else Return (cells_after_a rt mem [] x, cells_after_b rt mem [] x).
Proof.
  unfold coefficients. cbv zeta.
  rewrite infrared_masked by lengths.
  rewrite optical_masked by lengths.
  destruct (Np.any (map in_optical x)) eqn:Hany.
  - destruct (select_coeffs rt sel) as [[c1 c2]|e]; cbn [bind fst snd];
      [|reflexivity].
    rewrite mid_uv_masked, mid_uv_correction_masked, far_uv_masked by lengths.
    unfold masked, cells_after_a, cells_after_b, cell_a, cell_b.
    rewrite !map2_map2, !map2_empty. reflexivity.
  - cbn [bind].
    rewrite mid_uv_masked, mid_uv_correction_masked, far_uv_masked by lengths.
    unfold masked, cells_after_a, cells_after_b, cell_a, cell_b.
    rewrite !map2_map2, !map2_empty.
    pose proof (proj1 (any_map_false in_optical x) Hany) as Hno.
    f_equal; f_equal; apply imap_ext_in; intros i v Hv;
      unfold cell_a, cell_b, step_a, step_b; now rewrite (Hno v Hv).
Qed.

End Passes.
End Passes.

(** ** Binary64 arithmetic used by the properties *)

Module Arith.
Import F64 F64Facts.

(** Rounding never turns a non-negative mantissa into NaN, and keeps the
    sign. *)
Lemma shr_1_nonneg mrs : (0 <= shr_m mrs)%Z -> (0 <= shr_m (shr_1 mrs))%Z.
Proof.
  destruct mrs as [m r s]. cbn. destruct m as [|[p|p|]|[p|p|]]; cbn; lia.
Qed.

Lemma iter_shr_1_nonneg p mrs :
  (0 <= shr_m mrs)%Z -> (0 <= shr_m (SpecFloat.iter_pos shr_1 p mrs))%Z.
Proof.
  revert mrs; induction p as [p IH|p IH|]; intros mrs H; cbn.
  - apply IH, IH, shr_1_nonneg, H.
  - apply IH, IH, H.
  - apply shr_1_nonneg, H.
Qed.

Lemma shr_fexp_nonneg m e l :
  (0 <= m)%Z -> (0 <= shr_m (fst (shr_fexp prec emax m e l)))%Z.
Proof.
  intros H. unfold shr_fexp, shr.
  assert (H0 : (0 <= shr_m (shr_record_of_loc m l))%Z)
    by (destruct l as [|[]]; exact H).
  destruct (fexp prec emax (Zdigits2 m + e) - e)%Z; cbn [fst]; try exact H0.
  now apply iter_shr_1_nonneg.
Qed.

Lemma round_nearest_even_nonneg m l :
  (0 <= m)%Z -> (0 <= round_nearest_even m l)%Z.
Proof.
  intros H. destruct l as [|[]]; cbn; try lia. destruct (Z.even m); lia.
Qed.

Lemma binary_round_aux_signed s m e l :
  (0 <= m)%Z -> signed s (binary_round_aux prec emax s m e l).
Proof.
  intros H. unfold binary_round_aux.
  pose proof (shr_fexp_nonneg m e l H) as H1.
  destruct (shr_fexp prec emax m e l) as [mrs' e']. cbn [fst] in H1.
  pose proof (shr_fexp_nonneg _ e' loc_Exact
                (round_nearest_even_nonneg _ (loc_of_shr_record mrs') H1)) as H2.
  destruct (shr_fexp prec emax (round_nearest_even _ _) e' loc_Exact) as [mrs'' e''].
  cbn [fst] in H2.
  destruct (shr_m mrs'') as [|p|p]; try lia; [exact eq_refl|].
  destruct (e'' <=? emax - prec)%Z; exact eq_refl.
Qed.

Lemma SFdiv_core_binary_nonneg m1 e1 m2 e2 :
  (0 <= fst (fst (SFdiv_core_binary prec emax (Zpos m1) e1 (Zpos m2) e2)))%Z.
Proof.
  unfold SFdiv_core_binary.
  set (s := (_ - _ - _)%Z).
  set (m' := match s with Zpos _ => Z.shiftl (Zpos m1) s | Z0 => Zpos m1 | Zneg _ => 0%Z end).
  assert (Hm : (0 <= m')%Z).
  { unfold m'. destruct s; try lia. apply Z.shiftl_nonneg. lia. }
  pose proof (Z.div_pos m' (Zpos m2) Hm ltac:(lia)) as Hq.
  unfold Z.div in Hq.
  destruct (Z.div_eucl m' (Zpos m2)) as [q r]. exact Hq.
Qed.

(** Dividing a positive number by a negative one gives a negative result,
    possibly a zero or an infinity, never NaN. *)
Lemma SFdiv_pos_neg m1 e1 m2 e2 :
  signed true (SFdiv prec emax (S754_finite false m1 e1) (S754_finite true m2 e2)).
Proof.
  unfold SFdiv.
  pose proof (SFdiv_core_binary_nonneg m1 e1 m2 e2) as H.
  destruct (SFdiv_core_binary prec emax (Zpos m1) e1 (Zpos m2) e2) as [[mz ez] lz].
  cbn [fst] in H. now apply binary_round_aux_signed.
Qed.

(** A non-positive wavelength has an inverse micron outside the range. *)
Lemma nonpositive_out_of_range w :
  (w <=? 0) = true -> out_of_range (1e4 / w) = true.
Proof.
  unfold out_of_range. rewrite leb_cmp, !ltb_cmp. unfold cmp.
  rewrite div_spec. unfold SF64div.
  change (Prim2SF 1e4) with (S754_finite false 5497558138880000 (-39)).
  change (Prim2SF 0) with (S754_zero false).
  change (Prim2SF 0.3) with (S754_finite false 5404319552844595 (-54)).
  change (Prim2SF 11) with (S754_finite false 6192449487634432 (-49)).
  destruct (Prim2SF w) as [[]|[]| |[] m e];
    try (cbn; try discriminate; reflexivity).
  intros _.
  pose proof (SFdiv_pos_neg 5497558138880000 (-39) m e) as H.
  destruct (SFdiv prec emax _ _) as [s'|s'| |s' m' e']; unfold signed in H;
    try contradiction; subst s'; reflexivity.
Qed.

(** A negative wavelength has a negative inverse micron, below 0.3. *)
Lemma negative_below_range w : (w <? 0) = true -> (1e4 / w <? 0.3) = true.
Proof.
  rewrite !ltb_cmp. unfold cmp.
  rewrite div_spec. unfold SF64div.
  change (Prim2SF 1e4) with (S754_finite false 5497558138880000 (-39)).
  change (Prim2SF 0) with (S754_zero false).
  change (Prim2SF 0.3) with (S754_finite false 5404319552844595 (-54)).
  destruct (Prim2SF w) as [[]|[]| |[] m e];
    try (cbn; try discriminate; reflexivity).
  intros _.
  pose proof (SFdiv_pos_neg 5497558138880000 (-39) m e) as H.
  destruct (SFdiv prec emax _ _) as [s'|s'| |s' m' e']; unfold signed in H;
    try contradiction; subst s'; reflexivity.
Qed.

(** The mantissa of [1.0] is [2^52], its exponent [-52]: the product of the
    mantissas is the other mantissa shifted by 52 bits, which rounding shifts
    back without loss. *)
Lemma digits2_pos_shift52 m :
  Zpos (digits2_pos (Pos.mul 4503599627370496 m)) = (Zpos (digits2_pos m) + 52)%Z.
Proof.
  cbv [Pos.mul]. cbn [digits2_pos]. lia.
Qed.

Lemma shr52 m :
  SpecFloat.iter_pos shr_1 52
    (shr_record_of_loc (Zpos (Pos.mul 4503599627370496 m)) loc_Exact)
  = {| shr_m := Zpos m; shr_r := false; shr_s := false |}.
Proof. cbv [Pos.mul]. reflexivity. Qed.

Lemma round_by_one s m e :
  bounded prec emax m e = true ->
  binary_round_aux prec emax s (Zpos (Pos.mul 4503599627370496 m)) (-52 + e) loc_Exact
  = S754_finite s m e.
Proof.
  unfold bounded, canonical_mantissa. intros H.
  apply andb_prop in H as [Hc He]. apply Z.eqb_eq in Hc.
  unfold binary_round_aux, shr_fexp at 1.
  unfold Zdigits2. rewrite digits2_pos_shift52.
  replace (Zpos (digits2_pos m) + 52 + (-52 + e))%Z
    with (Zpos (digits2_pos m) + e)%Z by lia.
  rewrite Hc.
  replace (e - (-52 + e))%Z with 52%Z by lia.
  unfold shr at 1. rewrite shr52.
  replace (-52 + e + 52)%Z with e by lia.
  cbn [shr_m loc_of_shr_record round_nearest_even].
  unfold shr_fexp, Zdigits2. rewrite Hc, Z.sub_diag.
  cbn [shr shr_record_of_loc shr_m]. now rewrite He.
Qed.

(** Multiplying by one changes nothing. *)
Lemma mul_1_l r : 1 * r = r.
Proof.
  apply Prim2SF_inj. rewrite mul_spec. unfold SF64mul.
  change (Prim2SF 1) with (S754_finite false 4503599627370496 (-52)).
  pose proof (Prim2SF_valid r) as Hv.
  destruct (Prim2SF r) as [s|s| |s m e]; try reflexivity.
  cbn [SFmul xorb]. apply round_by_one. exact Hv.
Qed.

(** Adding [+0.0] changes nothing but the sign of [-0.0]. *)
Lemma add_0_r r : r <> neg_zero -> r + 0 = r.
Proof.
  intros Hr. apply Prim2SF_inj. rewrite add_spec. unfold SF64add.
  change (Prim2SF 0) with (S754_zero false).
  destruct (Prim2SF r) as [[]|s| |s m e] eqn:E; try reflexivity.
  exfalso. apply Hr. apply Prim2SF_inj. rewrite E. reflexivity.
Qed.

Lemma add_0_r_eqb r : is_nan r = false -> (r + 0 =? r) = true.
Proof.
  intros Hr. rewrite eqb_cmp. unfold cmp. rewrite add_spec. unfold SF64add.
  change (Prim2SF 0) with (S754_zero false).
  apply is_nan_false in Hr.
  destruct (Prim2SF r) as [[]|s| |s m e] eqn:E; try reflexivity; try congruence;
    cbn [SFadd]; now rewrite SFcompare_refl by discriminate.
Qed.


End Arith.

(** ** The function, element by element *)

Module Curve.
Import F64 F64Facts Regions NpFacts Passes.

Lemma step_a_curve rt c1 a0 x :
  is_nan x = false -> step_a rt c1 a0 x = curve_a rt c1 x.
Proof.
  intros Hx. unfold step_a, curve_a, region_of, in_infrared, in_optical, in_mid_uv,
    in_correction, in_far_uv.
  rewrite !polyval1_flipud.
  by_region x Hx; reflexivity.
Qed.

Lemma step_b_curve rt c2 b0 x :
  is_nan x = false -> step_b rt c2 b0 x = curve_b rt c2 x.
Proof.
  intros Hx. unfold step_b, curve_b, region_of, in_infrared, in_optical, in_mid_uv,
    in_correction, in_far_uv.
  rewrite !polyval1_flipud.
  by_region x Hx; reflexivity.
Qed.

Lemma in_domain_not_nan x : in_domain x = true -> is_nan x = false.
Proof.
  unfold in_domain. intros H. apply andb_prop in H as [H _].
  now apply leb_not_nan in H.
Qed.

Lemma in_domain_in_range x : in_domain x = true -> out_of_range x = false.
Proof.
  intros H. pose proof (in_domain_not_nan x H) as Hx.
  unfold in_domain in H. apply andb_prop in H as [H1 H2].
  unfold out_of_range.
  rewrite (ltb_negb_leb x 0.3), (ltb_negb_leb 11 x) by (assumption || reflexivity).
  now rewrite H1, H2.
Qed.

Lemma select_coeffs_tables rt sel :
  select_coeffs rt sel
  = match tables sel with
    | Some c => Return c
    | None => Raise (ValueError (coeffs_message rt sel))
    end.
Proof.
  unfold select_coeffs, tables.
  destruct (String.eqb sel "odonnell"); [reflexivity|].
  destruct (String.eqb sel "ccm"); reflexivity.
Qed.

Lemma call_elementwise rt mem wavelength r_v sel :
  extinction_ratio_ccm rt mem wavelength r_v sel
  = let x := inverse_microns wavelength in
    if Np.any (map out_of_range x) then Raise (ValueError range_message)
    else if Np.any (map in_optical x) then
      bind (select_coeffs rt sel) (fun c =>
        Return (shaped_like wavelength (ratios rt mem c r_v x)))
    else Return (shaped_like wavelength (ratios rt mem ([], []) r_v x)).
Proof.
  unfold extinction_ratio_ccm. cbv zeta. fold (inverse_microns wavelength).
  unfold Np.lt, Np.gt. rewrite or_map.
  change (fun v => (v <? 0.3) || (11 <? v)) with out_of_range.
  destruct (Np.any (map out_of_range (inverse_microns wavelength))); [reflexivity|].
  rewrite coefficients_elementwise.
  assert (Hshape : forall c,
    (if Nat.eqb (Np.ndim (Np.asarray wavelength)) 0
     then match Np.map2 (fun ai bi => ai * r_v + bi)
                  (cells_after_a rt mem (fst c) (inverse_microns wavelength))
                  (cells_after_b rt mem (snd c) (inverse_microns wavelength)) with
          | v :: _ => Return (Scalar v)
          | [] => Raise IndexError
          end
     else Return (Array (Np.map2 (fun ai bi => ai * r_v + bi)
                  (cells_after_a rt mem (fst c) (inverse_microns wavelength))
                  (cells_after_b rt mem (snd c) (inverse_microns wavelength)))))
    = Return (shaped_like wavelength (ratios rt mem c r_v (inverse_microns wavelength)))).
  { intros c. unfold cells_after_a, cells_after_b. rewrite map2_imap.
    destruct wavelength; reflexivity. }
  destruct (Np.any (map in_optical (inverse_microns wavelength))).
  - destruct (select_coeffs rt sel) as [[c1 c2]|e]; cbn [bind]; [|reflexivity].
    apply (Hshape (c1, c2)).
  - cbn [bind]. apply (Hshape ([], [])).
Qed.


End Curve.

(** ** The function on inputs in the validated domain *)

Module InDomain.
Import F64 F64Facts Regions NpFacts Passes Curve.

(** Outside the optical band the optical table is not looked at. *)
Lemma curve_a_not_optical rt c1 c1' x :
  in_optical x = false -> curve_a rt c1 x = curve_a rt c1' x.
Proof.
  unfold in_optical, curve_a, region_of. intros H.
  destruct (x <? 1.1) eqn:E1; [reflexivity|].
  destruct (x <? 3.3) eqn:E3; [|destruct (x <? 8); reflexivity].
  exfalso. apply ltb_not_nan in E3 as [Hx _].
  rewrite (leb_negb_ltb 1.1 x), E1 in H by (assumption || reflexivity).
  discriminate.
Qed.

Lemma curve_b_not_optical rt c2 c2' x :
  in_optical x = false -> curve_b rt c2 x = curve_b rt c2' x.
Proof.
  unfold in_optical, curve_b, region_of. intros H.
  destruct (x <? 1.1) eqn:E1; [reflexivity|].
  destruct (x <? 3.3) eqn:E3; [|destruct (x <? 8); reflexivity].
  exfalso. apply ltb_not_nan in E3 as [Hx _].
  rewrite (leb_negb_ltb 1.1 x), E1 in H by (assumption || reflexivity).
  discriminate.
Qed.

Lemma curve_ratio_not_optical rt c c' r_v x :
  in_optical x = false -> curve_ratio rt c r_v x = curve_ratio rt c' r_v x.
Proof.
  intros H. unfold curve_ratio.
  now rewrite (curve_a_not_optical rt (fst c) (fst c') x H),
              (curve_b_not_optical rt (snd c) (snd c') x H).
Qed.

(** Without NaN among the elements, the uninitialised cells do not show. *)
Lemma ratios_curve rt mem c r_v x :
  (forall v, In v x -> is_nan v = false) ->
  ratios rt mem c r_v x = map (curve_ratio rt c r_v) x.
Proof.
  intros H. unfold ratios. rewrite <- imap_const with (k := 0%nat).
  apply imap_ext_in. intros i v Hv.
  unfold element_ratio, cell_a, cell_b, curve_ratio.
  now rewrite step_a_curve, step_b_curve by auto.
Qed.

Lemma in_domain_input_not_nan wavelength :
  in_domain_input wavelength ->
  forall v, In v (inverse_microns wavelength) -> is_nan v = false.
Proof.
  unfold in_domain_input. rewrite Forall_forall. intros H v Hv.
  apply in_domain_not_nan, H, Hv.
Qed.

Lemma in_domain_input_in_range wavelength :
  in_domain_input wavelength ->
  Np.any (map out_of_range (inverse_microns wavelength)) = false.
Proof.
  unfold in_domain_input. rewrite Forall_forall. intros H.
  apply any_map_false. intros v Hv. apply in_domain_in_range, H, Hv.
Qed.

(** The call on an input in the domain: the optical pass decides between
    raising and returning, and what is returned is the piecewise model. *)
Lemma call_in_domain rt mem wavelength r_v sel :
  in_domain_input wavelength ->
  extinction_ratio_ccm rt mem wavelength r_v sel
  = if Np.any (map in_optical (inverse_microns wavelength)) then
      bind (select_coeffs rt sel) (fun c =>
        Return (shaped_like wavelength
                  (map (curve_ratio rt c r_v) (inverse_microns wavelength))))
    else Return (shaped_like wavelength
                   (map (curve_ratio rt (tables_in_use sel) r_v)
                        (inverse_microns wavelength))).
Proof.
  intros H. rewrite call_elementwise. cbv zeta.
  rewrite (in_domain_input_in_range _ H).
  pose proof (in_domain_input_not_nan _ H) as Hn.
  destruct (Np.any (map in_optical (inverse_microns wavelength))) eqn:Hany.
  - destruct (select_coeffs rt sel) as [c|e]; cbn [bind]; [|reflexivity].
    now rewrite ratios_curve.
  - rewrite ratios_curve by assumption. do 2 f_equal.
    apply map_ext_in. intros v Hv. apply curve_ratio_not_optical.
    exact (proj1 (any_map_false _ _) Hany v Hv).
Qed.

(** With a recognised selector the call on an input in the domain returns. *)
Lemma call_recognised rt mem wavelength r_v sel c :
  tables sel = Some c ->
  in_domain_input wavelength ->
  extinction_ratio_ccm rt mem wavelength r_v sel
  = Return (shaped_like wavelength
              (map (curve_ratio rt c r_v) (inverse_microns wavelength))).
Proof.
  intros Hsel Hdom. rewrite call_in_domain by assumption.
  rewrite select_coeffs_tables. unfold tables_in_use. rewrite Hsel. cbn [bind].
  now destruct (Np.any _).
Qed.

End InDomain.

(** * The claims *)

Import F64 F64Facts Regions NpFacts Passes Curve InDomain Arith.

(** C1. For an input all of whose inverse microns lie in [0.3, 11.0] and a
    recognised selector, the call returns, element by element,
    [a(x) * r_v + b(x)], where [a] and [b] are the coefficients of the
    piecewise model and every polynomial (the optical CCM or O'Donnell
    tables, the far-UV tables) is evaluated with index 0 of its table as the
    constant term ([horner]); the result has the shape of the input. *)
Theorem ratio_is_a_rv_plus_b rt mem wavelength r_v optical_coeffs c :
  tables optical_coeffs = Some c ->
  in_domain_input wavelength ->
  extinction_ratio_ccm rt mem wavelength r_v optical_coeffs
  = Return (shaped_like wavelength
              (map (fun x => curve_a rt (fst c) x * r_v + curve_b rt (snd c) x)
                   (inverse_microns wavelength))).
Proof.
  intros Hsel Hdom.
  pose proof (in_domain_input_in_range _ Hdom) as Hrange.
  pose proof (in_domain_input_not_nan _ Hdom) as Hnum.
  rewrite call_elementwise, select_coeffs_tables, Hsel. cbv zeta.
  rewrite Hrange. cbn [bind].
  destruct (Np.any (map in_optical (inverse_microns wavelength))) eqn:Hany;
    rewrite ratios_curve by assumption; [reflexivity|].
  apply f_equal, f_equal, map_ext_in. intros x Hx.
  apply (curve_ratio_not_optical rt ([], []) c).
  exact (proj1 (any_map_false _ _) Hany x Hx).
Qed.

(** Read the other way round (without the flip) a table gives another
    polynomial: at [xp = 0] its value would be the last entry, not the
    first. *)
Example table_order_matters :
  polyval1 (Np.flipud c1_ccm) 0 = 1
  /\ polyval1 c1_ccm 0 = 0.32999
  /\ horner c1_ccm 0 = 1.
Proof. repeat split; vm_compute; reflexivity. Qed.

Lemma ratio_is_a_rv_plus_b_witness :
  extinction_ratio_ccm rt_mul mem_zeros (PyList [1000; 2000; 1500; 5494.5]) 3.1 "ccm"
  = Return (Array [16.238899999999997; 9.0944035165294128;
                   8.2709128340701383; 3.1000035709351335]).
Proof.
  rewrite (ratio_is_a_rv_plus_b rt_mul mem_zeros _ 3.1 "ccm" (c1_ccm, c2_ccm)).
  - vm_compute. reflexivity.
  - reflexivity.
  - repeat constructor.
Defined.

(** C2. The call raises the domain error exactly when some element has
    [x < 0.3] or [x > 11.0]; [x = 0.3] and [x = 11.0] themselves pass; a
    raise carries no value; the message names the valid Angstrom range. *)
Theorem domain_error_iff_out_of_range :
  (forall rt mem wavelength r_v optical_coeffs,
      extinction_ratio_ccm rt mem wavelength r_v optical_coeffs
      = Raise (ValueError range_message)
      <-> exists x, In x (inverse_microns wavelength)
                    /\ ((x <? 0.3) = true \/ (11 <? x) = true))
  /\ out_of_range 0.3 = false
  /\ out_of_range 11 = false
  /\ (exists pre post,
        range_message = (pre ++ "[909.091, 33333.3]" ++ post)%string).
Proof.
  split; [|split; [reflexivity|split; [reflexivity|]]].
  - intros rt mem wavelength r_v sel. rewrite call_elementwise. cbv zeta.
    destruct (Np.any (map out_of_range (inverse_microns wavelength))) eqn:Hany.
    + split; [intros _|reflexivity].
      apply any_map_true in Hany as (x & Hx & Hout).
      exists x. split; [assumption|]. now apply orb_prop.
    + split.
      * intros H. exfalso.
        destruct (Np.any (map in_optical _)); [|discriminate].
        rewrite select_coeffs_tables in H.
        destruct (tables sel); cbn [bind] in H; discriminate.
      * intros (x & Hx & Hout). exfalso.
        pose proof (proj1 (any_map_false _ _) Hany x Hx) as Hin.
        unfold out_of_range in Hin. destruct Hout as [E|E]; rewrite E in Hin;
          [discriminate|]. now rewrite orb_true_r in Hin.
  - exists "extinction only defined in wavelength range "%string, "."%string.
    reflexivity.
Qed.

(** The wavelengths the specification names at the two ends: 909.1 and
    33333.3 Angstrom are accepted; just outside, the call raises. *)
Example boundary_wavelengths :
  (forall rt mem, exists v,
      extinction_ratio_ccm rt mem (PyFloat 909.1) 3.1 "odonnell"
      = Return (Scalar v))
  /\ (forall rt mem, exists v,
        extinction_ratio_ccm rt mem (PyFloat 33333.3) 3.1 "odonnell"
        = Return (Scalar v))
  /\ (forall rt mem,
        extinction_ratio_ccm rt mem (PyFloat 909.0) 3.1 "odonnell"
        = Raise (ValueError range_message))
  /\ (forall rt mem,
        extinction_ratio_ccm rt mem (PyFloat 33334.0) 3.1 "odonnell"
        = Raise (ValueError range_message)).
Proof.
  repeat split; intros rt mem; try (eexists; vm_compute; reflexivity);
    vm_compute; reflexivity.
Qed.

(** C3, as the code has it. The selector is looked at only inside the
    optical pass, which runs only when some element has [1.1 <= x < 3.3]:
    on an input in the domain, an unrecognised selector raises the
    configuration error exactly when there is such an element, and otherwise
    the call returns what it returns with the default selector. *)
Theorem unrecognised_selector_raises_iff_optical
    rt mem wavelength r_v optical_coeffs :
  tables optical_coeffs = None ->
  in_domain_input wavelength ->
  (extinction_ratio_ccm rt mem wavelength r_v optical_coeffs
   = Raise (ValueError (coeffs_message rt optical_coeffs))
   <-> exists x, In x (inverse_microns wavelength) /\ in_optical x = true)
  /\ ((forall x, In x (inverse_microns wavelength) -> in_optical x = false) ->
      exists out,
        extinction_ratio_ccm rt mem wavelength r_v optical_coeffs = Return out
        /\ extinction_ratio_ccm rt mem wavelength r_v default_optical_coeffs
           = Return out).
Proof.
  intros Hsel Hdom. rewrite !call_in_domain by assumption.
  rewrite !select_coeffs_tables, Hsel. cbn [bind].
  destruct (Np.any (map in_optical (inverse_microns wavelength))) eqn:Hany.
  - split.
    + split; [intros _|reflexivity]. now apply any_map_true.
    + intros Hno. apply any_map_true in Hany as (x & Hx & E).
      rewrite (Hno x Hx) in E. discriminate.
  - split.
    + split; [discriminate|]. intros (x & Hx & E).
      rewrite (proj1 (any_map_false _ _) Hany x Hx) in E. discriminate.
    + intros Hno. eexists. split; [reflexivity|]. do 2 f_equal.
      apply map_ext_in. intros v Hv. apply curve_ratio_not_optical, Hno, Hv.
Qed.

Lemma unrecognised_selector_raises_iff_optical_witness :
  (extinction_ratio_ccm rt_mul mem_zeros (PyList [5494.5; 1000]) 3.1 "bogus"
   = Raise (ValueError (coeffs_message rt_mul "bogus"))
   <-> exists x, In x (inverse_microns (PyList [5494.5; 1000]))
                 /\ in_optical x = true)
  /\ ((forall x, In x (inverse_microns (PyList [5494.5; 1000])) ->
                 in_optical x = false) ->
      exists out,
        extinction_ratio_ccm rt_mul mem_zeros (PyList [5494.5; 1000]) 3.1 "bogus"
        = Return out
        /\ extinction_ratio_ccm rt_mul mem_zeros (PyList [5494.5; 1000]) 3.1
             default_optical_coeffs
           = Return out).
Proof.
  apply unrecognised_selector_raises_iff_optical.
  - reflexivity.
  - repeat constructor.
Defined.

(** C3 as stated fails: 1000 Angstrom is in the domain ([x = 10], far-UV),
    "bogus" is not a recognised selector, and the call returns a value. *)
Lemma bogus_selector_returns_outside_optical :
  in_domain_input (PyFloat 1000)
  /\ tables "bogus" = None
  /\ (forall rt mem,
        extinction_ratio_ccm rt mem (PyFloat 1000) 3.1 "bogus"
        = Return (Scalar 16.238899999999997)).
Proof.
  split; [repeat constructor|]. split; [reflexivity|].
  intros rt mem. vm_compute. reflexivity.
Qed.

(** C4. Where [3.3 <= x < 8] the buffers hold the mid-UV base formulas
    [1.752 - 0.316 x - 0.104 / ((x - 4.67)^2 + 0.341)] and
    [-3.090 + 1.825 x + 1.206 / ((x - 4.67)^2 + 0.263)]; exactly where also
    [5.9 < x] (strictly) the terms [-0.04473 xp^2 - 0.009779 xp^3] and
    [0.2130 xp^2 + 0.1207 xp^3], [xp = x - 5.9], are added to those base
    values; for [3.3 <= x <= 5.9] the base values stand alone. *)
Theorem mid_uv_base_plus_correction rt mem x optical_coeffs a b i v :
  coefficients rt mem x optical_coeffs = Return (a, b) ->
  nth_error x i = Some v ->
  (3.3 <=? v) = true -> (v <? 8) = true ->
  nth_error a i
  = Some (if 5.9 <? v then mid_uv_a rt v + corr_a rt (v - 5.9) else mid_uv_a rt v)
  /\ nth_error b i
     = Some (if 5.9 <? v then mid_uv_b rt v + corr_b rt (v - 5.9)
             else mid_uv_b rt v).
Proof.
  intros Hab Hv Hlo Hhi.
  assert (Hcell : forall c1 c2 a0 b0,
    step_a rt c1 a0 v
    = (if 5.9 <? v then mid_uv_a rt v + corr_a rt (v - 5.9) else mid_uv_a rt v)
    /\ step_b rt c2 b0 v
       = (if 5.9 <? v then mid_uv_b rt v + corr_b rt (v - 5.9)
          else mid_uv_b rt v)).
  { intros c1 c2 a0 b0.
    pose proof (proj2 (leb_not_nan _ _ Hlo)) as Hn.
    unfold step_a, step_b, in_infrared, in_optical, in_mid_uv, in_correction,
      in_far_uv.
    revert Hlo Hhi. by_region v Hn; intros; try discriminate; split; reflexivity. }
  rewrite coefficients_elementwise in Hab.
  assert (Hc : exists c1 c2,
             a = cells_after_a rt mem c1 x /\ b = cells_after_b rt mem c2 x).
  { destruct (Np.any _).
    - destruct (select_coeffs rt optical_coeffs) as [c|e]; cbn [bind] in Hab;
        [|discriminate].
      injection Hab as <- <-. eauto.
    - injection Hab as <- <-. eauto. }
  destruct Hc as (c1 & c2 & -> & ->).
  unfold cells_after_a, cells_after_b. rewrite !imap_nth_error, Hv. cbn.
  unfold cell_a, cell_b.
  destruct (Hcell c1 c2 (cells_a mem i) (cells_b mem i)) as [-> ->]. now split.
Qed.

Lemma mid_uv_base_plus_correction_witness :
  nth_error [-0.059162480551233632; -0.54516372481587216] 1
  = Some (if 5.9 <? 7 then mid_uv_a rt_mul 7 + corr_a rt_mul (7 - 5.9)
          else mid_uv_a rt_mul 7)
  /\ nth_error [9.2778072062382364; 10.315261740056924] 1
     = Some (if 5.9 <? 7 then mid_uv_b rt_mul 7 + corr_b rt_mul (7 - 5.9)
             else mid_uv_b rt_mul 7).
Proof.
  apply (mid_uv_base_plus_correction rt_mul mem_zeros [5; 7] "ccm").
  - vm_compute. reflexivity.
  - reflexivity.
  - reflexivity.
  - reflexivity.
Defined.

Lemma nth_mask (p : float -> bool) x i v :
  nth_error x i = Some v -> nth i (map p x) false = p v.
Proof.
  revert i; induction x as [|u x IH]; intros [|i]; cbn; try discriminate.
  - now intros [= ->].
  - apply IH.
Qed.

(** What a returning run of the passes leaves in the buffers. *)
Lemma coefficients_returned rt mem x optical_coeffs a b :
  coefficients rt mem x optical_coeffs = Return (a, b) ->
  exists c,
    a = cells_after_a rt mem (fst c) x /\ b = cells_after_b rt mem (snd c) x
    /\ (c = tables_in_use optical_coeffs
        \/ Np.any (map in_optical x) = false).
Proof.
  rewrite coefficients_elementwise, select_coeffs_tables. unfold tables_in_use.
  destruct (Np.any (map in_optical x)).
  - destruct (tables optical_coeffs) as [c|]; cbn [bind]; [|discriminate].
    intros H; injection H as <- <-. exists c. auto.
  - intros H; injection H as <- <-. exists ([], []). auto.
Qed.

(** C5. An element of the domain [0.3, 11.0] lies in exactly one of the four
    base regions, the one its [x] alone determines: of the four base masks
    exactly that region's is set at the element; the mask of the 5.9-8
    correction is set only inside the mid-UV region; and after the passes the
    cells of [a] and [b] hold the value of that one region's formulas. *)
Theorem regions_partition_the_domain rt mem x optical_coeffs a b i v :
  coefficients rt mem x optical_coeffs = Return (a, b) ->
  nth_error x i = Some v ->
  in_domain v = true ->
  map (fun idx => nth i idx false) (base_masks x) = one_hot (region_of v)
  /\ (nth i (correction_mask x) false = true -> region_of v = MidUV)
  /\ nth_error a i = Some (curve_a rt (fst (tables_in_use optical_coeffs)) v)
  /\ nth_error b i = Some (curve_b rt (snd (tables_in_use optical_coeffs)) v).
Proof.
  intros Hab Hv Hdom. pose proof (in_domain_not_nan v Hdom) as Hn.
  unfold base_masks, correction_mask, Np.lt, Np.ge, Np.gt. cbn [map].
  rewrite !and_map, !(nth_mask _ x i v Hv).
  split; [|split].
  - unfold region_of. by_region v Hn; reflexivity.
  - unfold region_of. by_region v Hn; cbn; congruence.
  - apply coefficients_returned in Hab as (c & -> & -> & Hc).
    unfold cells_after_a, cells_after_b. rewrite !imap_nth_error, Hv. cbn.
    unfold cell_a, cell_b. rewrite step_a_curve, step_b_curve by assumption.
    destruct Hc as [->|Hno]; [now split|].
    pose proof (proj1 (any_map_false _ _) Hno v (nth_error_In _ _ Hv)) as E.
    now rewrite (curve_a_not_optical rt (fst c) (fst (tables_in_use optical_coeffs))),
                (curve_b_not_optical rt (snd c) (snd (tables_in_use optical_coeffs))).
Qed.

Lemma regions_partition_the_domain_witness :
  map (fun idx => nth 2 idx false) (base_masks [5; 7; 1.82; 10])
  = one_hot (region_of 1.82)
  /\ (nth 2 (correction_mask [5; 7; 1.82; 10]) false = true ->
      region_of 1.82 = MidUV)
  /\ nth_error [-0.059162480551233632; -0.54516372481587216; 1;
                -2.3410000000000002] 2
     = Some (curve_a rt_mul (fst (tables_in_use "ccm")) 1.82)
  /\ nth_error [9.2778072062382364; 10.315261740056924; 0; 23.495999999999999] 2
     = Some (curve_b rt_mul (snd (tables_in_use "ccm")) 1.82).
Proof.
  apply (regions_partition_the_domain rt_mul mem_zeros [5; 7; 1.82; 10] "ccm").
  - vm_compute. reflexivity.
  - reflexivity.
  - reflexivity.
Defined.

Lemma values_shaped_like wavelength (f : float -> float) :
  values (shaped_like wavelength (map f (inverse_microns wavelength)))
  = map f (inverse_microns wavelength).
Proof. destruct wavelength; reflexivity. Qed.

(** C6. On an input in the domain both selectors return, and the two results
    agree at every element whose [x] is outside [1.1, 3.3); so they are the
    same object when no element is inside, and can differ only at elements
    inside. *)
Theorem selectors_agree_outside_optical rt mem mem' wavelength r_v :
  in_domain_input wavelength ->
  exists u v,
    extinction_ratio_ccm rt mem wavelength r_v "ccm" = Return u
    /\ extinction_ratio_ccm rt mem' wavelength r_v "odonnell" = Return v
    /\ (forall i x,
          nth_error (inverse_microns wavelength) i = Some x ->
          in_optical x = false ->
          nth_error (values u) i = nth_error (values v) i)
    /\ ((forall x, In x (inverse_microns wavelength) -> in_optical x = false) ->
        u = v).
Proof.
  intros Hdom.
  rewrite (call_recognised rt mem wavelength r_v "ccm" (c1_ccm, c2_ccm))
    by (reflexivity || assumption).
  rewrite (call_recognised rt mem' wavelength r_v "odonnell"
             (c1_odonnell, c2_odonnell)) by (reflexivity || assumption).
  do 2 eexists. split; [reflexivity|]. split; [reflexivity|].
  pose proof (fun x E =>
    curve_ratio_not_optical rt (c1_ccm, c2_ccm) (c1_odonnell, c2_odonnell)
      r_v x E) as Hx.
  split.
  - intros i x Hi E. rewrite !values_shaped_like, !nth_error_map, Hi. cbn.
    f_equal. apply (Hx x E).
  - intros Hno. apply f_equal, map_ext_in. intros x Hin.
    apply Hx, Hno, Hin.
Qed.

Lemma selectors_agree_outside_optical_witness :
  exists u v,
    extinction_ratio_ccm rt_mul mem_zeros (PyList [4000; 1000]) 3.1 "ccm" = Return u
    /\ extinction_ratio_ccm rt_mul mem_ones (PyList [4000; 1000]) 3.1 "odonnell"
       = Return v
    /\ (forall i x,
          nth_error (inverse_microns (PyList [4000; 1000])) i = Some x ->
          in_optical x = false ->
          nth_error (values u) i = nth_error (values v) i)
    /\ ((forall x, In x (inverse_microns (PyList [4000; 1000])) ->
                   in_optical x = false) ->
        u = v).
Proof.
  apply selectors_agree_outside_optical. repeat constructor.
Defined.

(** Inside the band the two selectors do give different values. *)
Example selectors_differ_at_4000 :
  extinction_ratio_ccm rt_mul mem_zeros (PyList [4000; 1000]) 3.1 "ccm"
  = Return (Array [4.5401226791220104; 16.238899999999997])
  /\ extinction_ratio_ccm rt_mul mem_zeros (PyList [4000; 1000]) 3.1 "odonnell"
     = Return (Array [4.4211518763207494; 16.238899999999997]).
Proof. split; vm_compute; reflexivity. Qed.

Lemma step_a_not_optical rt c1 c1' a0 x :
  in_optical x = false -> step_a rt c1 a0 x = step_a rt c1' a0 x.
Proof. intros H. unfold step_a. now rewrite H. Qed.

Lemma step_b_not_optical rt c2 c2' b0 x :
  in_optical x = false -> step_b rt c2 b0 x = step_b rt c2' b0 x.
Proof. intros H. unfold step_b. now rewrite H. Qed.

(** What a returning call returns. *)
Lemma call_returned rt mem wavelength r_v optical_coeffs out :
  extinction_ratio_ccm rt mem wavelength r_v optical_coeffs = Return out ->
  Np.any (map out_of_range (inverse_microns wavelength)) = false
  /\ (Np.any (map in_optical (inverse_microns wavelength)) = true ->
      exists c, tables optical_coeffs = Some c)
  /\ out = shaped_like wavelength
             (ratios rt mem (tables_in_use optical_coeffs) r_v
                (inverse_microns wavelength)).
Proof.
  rewrite call_elementwise, select_coeffs_tables. cbv zeta. unfold tables_in_use.
  destruct (Np.any (map out_of_range _)); [discriminate|].
  destruct (Np.any (map in_optical (inverse_microns wavelength))) eqn:Hany.
  - destruct (tables optical_coeffs) as [c|]; cbn [bind]; [|discriminate].
    intros [= <-]. eauto.
  - intros [= <-]. split; [reflexivity|]. split; [discriminate|]. f_equal.
    apply imap_ext_in. intros i v Hv.
    pose proof (proj1 (any_map_false _ _) Hany v Hv) as E.
    unfold element_ratio, cell_a, cell_b.
    f_equal; [f_equal|];
      [apply step_a_not_optical|apply step_b_not_optical]; exact E.
Qed.





(** C7. At an element with [x] exactly 1.82, [xp = x - 1.82] is zero and, with
    either table pair, the optical polynomials return their constant terms:
    [a = 1.0] and [b = 0.0] exactly. The element of the result is then
    [1.0 * r_v + 0.0]: the very number [r_v], except that for [r_v = -0.0] it
    is [+0.0]; in every case it compares equal to [r_v] (unless [r_v] is NaN,
    which compares equal to nothing, and then the result is that NaN). *)
Theorem v_band_point_returns_r_v rt mem wavelength r_v optical_coeffs out i :
  extinction_ratio_ccm rt mem wavelength r_v optical_coeffs = Return out ->
  nth_error (inverse_microns wavelength) i = Some 1.82 ->
  exists c v,
    tables optical_coeffs = Some c
    /\ 1.82 - 1.82 = 0
    /\ polyval1 (Np.flipud (fst c)) 0 = hd 0 (fst c)
    /\ polyval1 (Np.flipud (snd c)) 0 = hd 0 (snd c)
    /\ curve_a rt (fst c) 1.82 = 1
    /\ curve_b rt (snd c) 1.82 = 0
    /\ nth_error (values out) i = Some v
    /\ v = 1 * r_v + 0
    /\ (v = r_v \/ (r_v = neg_zero /\ v = 0))
    /\ (is_nan r_v = false -> (v =? r_v) = true).
Proof.
  intros Hout Hi.
  apply call_returned in Hout as (_ & Hsel & ->).
  destruct Hsel as [c Hc].
  { apply any_map_true. exists 1.82. split; [|reflexivity].
    exact (nth_error_In _ _ Hi). }
  unfold tables_in_use. rewrite Hc.
  assert (Hv : nth_error
                 (values (shaped_like wavelength
                            (ratios rt mem c r_v (inverse_microns wavelength)))) i
               = Some (1 * r_v + 0)).
  { assert (E : values (shaped_like wavelength
                          (ratios rt mem c r_v (inverse_microns wavelength)))
                = ratios rt mem c r_v (inverse_microns wavelength))
      by (destruct wavelength; reflexivity).
    rewrite E. unfold ratios. rewrite imap_nth_error, Hi. cbn [option_map].
    unfold element_ratio, cell_a, cell_b.
    rewrite step_a_curve, step_b_curve by reflexivity.
    unfold tables in Hc.
    destruct (String.eqb optical_coeffs "odonnell"); [injection Hc as <-|];
      [reflexivity|].
    destruct (String.eqb optical_coeffs "ccm"); [injection Hc as <-|discriminate].
    reflexivity. }
  exists c, (1 * r_v + 0). rewrite mul_1_l in *.
  assert (Hc' : c = (c1_odonnell, c2_odonnell) \/ c = (c1_ccm, c2_ccm)).
  { unfold tables in Hc.
    destruct (String.eqb optical_coeffs "odonnell"); [injection Hc as <-; auto|].
    destruct (String.eqb optical_coeffs "ccm"); [injection Hc as <-; auto|].
    discriminate. }
  repeat split; try assumption;
    try (destruct Hc' as [->| ->]; reflexivity).
  - destruct (Prim2SF r_v) as [[]|s| |s m e] eqn:E.
    1: { right. split; [|apply Prim2SF_inj; rewrite add_spec, E; reflexivity].
         apply Prim2SF_inj. rewrite E. reflexivity. }
    all: left; apply add_0_r; intros ->; vm_compute in E; discriminate.
  - apply add_0_r_eqb.
Qed.

Lemma v_band_point_returns_r_v_witness :
  exists c v,
    tables "odonnell" = Some c
    /\ 1.82 - 1.82 = 0
    /\ polyval1 (Np.flipud (fst c)) 0 = hd 0 (fst c)
    /\ polyval1 (Np.flipud (snd c)) 0 = hd 0 (snd c)
    /\ curve_a rt_mul (fst c) 1.82 = 1
    /\ curve_b rt_mul (snd c) 1.82 = 0
    /\ nth_error (values (Scalar 3.1)) 0 = Some v
    /\ v = 1 * 3.1 + 0
    /\ (v = 3.1 \/ (3.1 = neg_zero /\ v = 0))
    /\ (is_nan 3.1 = false -> (v =? 3.1) = true).
Proof.
  apply (v_band_point_returns_r_v rt_mul mem_zeros (PyFloat 5494.5054945054944)
           3.1 "odonnell" (Scalar 3.1) 0).
  - vm_compute. reflexivity.
  - reflexivity.
Defined.

(** Without a NaN among the elements the result does not depend on what
    [np.empty] handed out: two calls with the same arguments agree. *)
Lemma result_independent_of_memory rt mem mem' wavelength r_v optical_coeffs :
  (forall x, In x (inverse_microns wavelength) -> is_nan x = false) ->
  extinction_ratio_ccm rt mem wavelength r_v optical_coeffs
  = extinction_ratio_ccm rt mem' wavelength r_v optical_coeffs.
Proof.
  intros H. rewrite !call_elementwise. cbv zeta.
  destruct (Np.any (map out_of_range _)); [reflexivity|].
  destruct (Np.any (map in_optical _)).
  - destruct (select_coeffs rt optical_coeffs) as [c|e]; cbn [bind];
      [|reflexivity].
    now rewrite !ratios_curve by assumption.
  - now rewrite !ratios_curve by assumption.
Qed.

(** C9, where the code departs from it. A NaN wavelength passes the range
    check (both comparisons are false) and is selected by no mask, so the
    returned number is computed from the uninitialised cells of [np.empty]:
    it is not a function of the arguments. *)
Theorem nan_wavelength_returns_uninitialised_cells :
  forall rt mem r_v optical_coeffs,
    extinction_ratio_ccm rt mem (PyFloat nan) r_v optical_coeffs
    = Return (Scalar (cells_a mem 0 * r_v + cells_b mem 0)).
Proof. intros rt mem r_v optical_coeffs. reflexivity. Qed.

Example nan_wavelength_two_memories :
  (forall rt,
      extinction_ratio_ccm rt mem_zeros (PyFloat nan) 3.1 "odonnell"
      = Return (Scalar 0))
  /\ (forall rt,
        extinction_ratio_ccm rt mem_ones (PyFloat nan) 3.1 "odonnell"
        = Return (Scalar 4.0999999999999996)).
Proof. split; intros rt; vm_compute; reflexivity. Qed.

(** C10. A wavelength that is not positive makes the call raise the domain
    error: a negative one has a negative [x], below 0.3; zero has
    [x = +infinity], above 11.0. *)
Theorem nonpositive_wavelength_raises rt mem wavelength r_v optical_coeffs w :
  In w (Np.ravel (Np.asarray wavelength)) ->
  (w <=? 0) = true ->
  extinction_ratio_ccm rt mem wavelength r_v optical_coeffs
  = Raise (ValueError range_message)
  /\ ((w <? 0) = true -> (1e4 / w <? 0.3) = true)
  /\ (w = 0 -> 1e4 / w = infinity /\ (11 <? 1e4 / w) = true).
Proof.
  intros Hw Hle. split; [|split].
  - rewrite call_elementwise. cbv zeta.
    replace (Np.any (map out_of_range (inverse_microns wavelength))) with true;
      [reflexivity|].
    symmetry. apply any_map_true. exists (1e4 / w). split.
    + unfold inverse_microns. now apply (in_map (fun w => 1e4 / w)).
    + now apply nonpositive_out_of_range.
  - apply negative_below_range.
  - intros ->. split; reflexivity.
Qed.

Lemma nonpositive_wavelength_raises_witness :
  extinction_ratio_ccm rt_mul mem_zeros (PyList [5000; -1; 0]) 3.1 "odonnell"
  = Raise (ValueError range_message)
  /\ ((-1 <? 0) = true -> (1e4 / -1 <? 0.3) = true)
  /\ (-1 = 0 -> 1e4 / -1 = infinity /\ (11 <? 1e4 / -1) = true).
Proof.
  apply nonpositive_wavelength_raises.
  - right; left; reflexivity.
  - reflexivity.
Defined.

(** * Further properties of [extinction_ratio_ccm] *)

(** The quotient of two finite numbers is a number of the sign of the
    operands' signs combined, never NaN. *)
Lemma SFdiv_finite_signed s1 m1 e1 s2 m2 e2 :
  signed (xorb s1 s2)
    (SFdiv prec emax (S754_finite s1 m1 e1) (S754_finite s2 m2 e2)).
Proof.
  unfold SFdiv.
  pose proof (SFdiv_core_binary_nonneg m1 e1 m2 e2) as H.
  destruct (SFdiv_core_binary prec emax (Zpos m1) e1 (Zpos m2) e2) as [[mz ez] lz].
  cbn [fst] in H. now apply binary_round_aux_signed.
Qed.

(** The inverse micron is NaN exactly when the wavelength is. *)
Lemma is_nan_inverse_micron w : is_nan (1e4 / w) = is_nan w.
Proof.
  apply eq_true_iff_eq. rewrite !is_nan_spec, div_spec. unfold SF64div.
  change (Prim2SF 1e4) with (S754_finite false 5497558138880000 (-39)).
  destruct (Prim2SF w) as [s|s| |s m e]; try (split; [discriminate|discriminate]);
    try (split; reflexivity).
  pose proof (SFdiv_finite_signed false 5497558138880000 (-39) s m e) as H.
  destruct (SFdiv prec emax _ _); unfold signed in H; try contradiction;
    split; discriminate.
Qed.

Lemma numbers_inverse_microns wavelength :
  (forall w, In w (Np.ravel (Np.asarray wavelength)) -> is_nan w = false) ->
  forall x, In x (inverse_microns wavelength) -> is_nan x = false.
Proof.
  intros H x Hx. unfold inverse_microns in Hx.
  apply in_map_iff in Hx as (w & <- & Hw). rewrite is_nan_inverse_micron. auto.
Qed.

(** The call on numbers (no NaN among the inverse microns), in one
    formula. *)
Lemma call_numbers rt mem wavelength r_v sel :
  (forall x, In x (inverse_microns wavelength) -> is_nan x = false) ->
  extinction_ratio_ccm rt mem wavelength r_v sel
  = let x := inverse_microns wavelength in
    if Np.any (map out_of_range x) then Raise (ValueError range_message)
    else if Np.any (map in_optical x) && negb (recognised sel)
    then Raise (ValueError (coeffs_message rt sel))
    else Return (shaped_like wavelength
                   (map (curve_ratio rt (tables_in_use sel) r_v) x)).
Proof.
  intros Hn. rewrite call_elementwise, select_coeffs_tables. cbv zeta.
  unfold tables_in_use, recognised.
  destruct (Np.any (map out_of_range _)); [reflexivity|].
  destruct (Np.any (map in_optical (inverse_microns wavelength))) eqn:Hany.
  - destruct (tables sel) as [c|]; cbn [bind andb negb]; [|reflexivity].
    now rewrite ratios_curve.
  - cbn [andb]. rewrite ratios_curve by assumption.
    apply f_equal, f_equal, map_ext_in. intros x Hx.
    apply curve_ratio_not_optical.
    exact (proj1 (any_map_false _ _) Hany x Hx).
Qed.


Lemma call_outcome rt mem wavelength r_v sel :
  extinction_ratio_ccm rt mem wavelength r_v sel
  = let x := inverse_microns wavelength in
    if Np.any (map out_of_range x) then Raise (ValueError range_message)
    else if Np.any (map in_optical x) && negb (recognised sel)
    then Raise (ValueError (coeffs_message rt sel))
    else Return (shaped_like wavelength (ratios rt mem (tables_in_use sel) r_v x)).
Proof.
  rewrite call_elementwise, select_coeffs_tables. cbv zeta.
  unfold tables_in_use, recognised.
  destruct (Np.any (map out_of_range _)); [reflexivity|].
  destruct (Np.any (map in_optical (inverse_microns wavelength))) eqn:Hany.
  - destruct (tables sel) as [c|]; reflexivity.
  - cbn [andb]. apply f_equal, f_equal, imap_ext_in. intros i v Hv.
    pose proof (proj1 (any_map_false _ _) Hany v Hv) as E.
    unfold element_ratio, cell_a, cell_b.
    f_equal; [f_equal|];
      [apply step_a_not_optical|apply step_b_not_optical]; exact E.
Qed.

(** X1. The call returns a value exactly when no element is out of range
    and, if some element lies in the optical band, the selector is one of
    the two recognised names. *)
Theorem call_returns_iff rt mem wavelength r_v optical_coeffs :
  (exists out,
      extinction_ratio_ccm rt mem wavelength r_v optical_coeffs = Return out)
  <-> (forall x, In x (inverse_microns wavelength) -> out_of_range x = false)
      /\ ((exists x, In x (inverse_microns wavelength) /\ in_optical x = true) ->
          recognised optical_coeffs = true).
Proof.
  rewrite call_outcome. cbv zeta. rewrite <- any_map_false, <- any_map_true.
  destruct (Np.any (map out_of_range _)).
  - split; [intros [out H]; discriminate|intros [H _]; discriminate].
  - destruct (Np.any (map in_optical _)), (recognised optical_coeffs); cbn;
      split; try (intros [out H]; discriminate); eauto.
    intros [_ H]. specialize (H eq_refl). discriminate.
Qed.

(** X2. The call raises nothing but its two [ValueError]s: the range error,
    exactly when some element is out of range, and the selector error,
    exactly when no element is out of range, some element lies in the
    optical band and the selector is not recognised. In particular
    [extinction_ratio[0]] never raises [IndexError], and the range error
    comes first when both apply. *)
Theorem call_raises_iff rt mem wavelength r_v optical_coeffs e :
  extinction_ratio_ccm rt mem wavelength r_v optical_coeffs = Raise e
  <-> (e = ValueError range_message
       /\ exists x, In x (inverse_microns wavelength) /\ out_of_range x = true)
      \/ (e = ValueError (coeffs_message rt optical_coeffs)
          /\ (forall x, In x (inverse_microns wavelength) ->
                        out_of_range x = false)
          /\ (exists x, In x (inverse_microns wavelength)
                        /\ in_optical x = true)
          /\ recognised optical_coeffs = false).
Proof.
  rewrite call_outcome. cbv zeta. rewrite <- any_map_false, <- !any_map_true.
  destruct (Np.any (map out_of_range _)).
  - split.
    + intros [= <-]. left. auto.
    + intros [[-> _]|(_ & H & _)]; [reflexivity|discriminate].
  - destruct (Np.any (map in_optical _)), (recognised optical_coeffs); cbn;
      (split; [intros [= <-] || discriminate
              |intros [[_ H]|(-> & _ & H1 & H2)]; try discriminate; try reflexivity]).
    right. auto.
Qed.



Lemma nan_is_nan w : is_nan w = true -> w = nan.
Proof.
  intros H. apply is_nan_spec in H. apply Prim2SF_inj. rewrite H. reflexivity.
Qed.

(** The element at index [i] of what a call returns. *)
Lemma nth_returned rt mem wavelength r_v sel out i w :
  extinction_ratio_ccm rt mem wavelength r_v sel = Return out ->
  nth_error (Np.ravel (Np.asarray wavelength)) i = Some w ->
  nth_error (values out) i
  = Some (element_ratio rt mem (tables_in_use sel) r_v i (1e4 / w)).
Proof.
  intros Hout Hw. apply call_returned in Hout as (_ & _ & ->).
  assert (E : forall l, List.length l = List.length (inverse_microns wavelength) ->
                        values (shaped_like wavelength l) = l).
  { destruct wavelength as [w0|ws|d0 d1 dims data]; [|reflexivity|reflexivity].
    intros [|v [|? ?]]; cbn; try discriminate. reflexivity. }
  rewrite E by apply imap_length.
  unfold ratios, inverse_microns. now rewrite imap_nth_error, nth_error_map, Hw.
Qed.

Lemma element_ratio_number rt mem c r_v i w :
  is_nan w = false ->
  element_ratio rt mem c r_v i (1e4 / w)
  = curve_a rt (fst c) (1e4 / w) * r_v + curve_b rt (snd c) (1e4 / w).
Proof.
  intros Hn. unfold element_ratio, cell_a, cell_b.
  now rewrite step_a_curve, step_b_curve by (now rewrite is_nan_inverse_micron).
Qed.

(** X7. In whatever a call returns, the element at a wavelength that is a
    number (not NaN) is the value of the piecewise model: it depends on that
    wavelength, [r_v] and the selector only, not on the other elements nor
    on the uninitialised buffers. *)
Theorem numbers_get_the_model_value
    rt mem wavelength r_v optical_coeffs out i w :
  extinction_ratio_ccm rt mem wavelength r_v optical_coeffs = Return out ->
  nth_error (Np.ravel (Np.asarray wavelength)) i = Some w ->
  is_nan w = false ->
  nth_error (values out) i
  = Some (curve_a rt (fst (tables_in_use optical_coeffs)) (1e4 / w) * r_v
          + curve_b rt (snd (tables_in_use optical_coeffs)) (1e4 / w)).
Proof.
  intros Hout Hw Hn.
  rewrite (nth_returned _ _ _ _ _ _ _ _ Hout Hw).
  now rewrite element_ratio_number.
Qed.

Lemma numbers_get_the_model_value_witness :
  nth_error (values (Array [4.0999999999999996; 16.238899999999997])) 1
  = Some (curve_a rt_mul (fst (tables_in_use "ccm")) (1e4 / 1000) * 3.1
          + curve_b rt_mul (snd (tables_in_use "ccm")) (1e4 / 1000)).
Proof.
  apply (numbers_get_the_model_value rt_mul mem_ones (PyList [nan; 1000]) 3.1
           "ccm" _ 1 1000).
  - vm_compute. reflexivity.
  - reflexivity.
  - reflexivity.
Defined.

(** X8. In whatever a call returns, the element at a NaN wavelength is
    [a[i] * r_v + b[i]] of the cells as [np.empty] handed them out: no pass
    writes that cell. *)
Theorem nan_elements_get_uninitialised_cells
    rt mem wavelength r_v optical_coeffs out i w :
  extinction_ratio_ccm rt mem wavelength r_v optical_coeffs = Return out ->
  nth_error (Np.ravel (Np.asarray wavelength)) i = Some w ->
  is_nan w = true ->
  nth_error (values out) i = Some (cells_a mem i * r_v + cells_b mem i).
Proof.
  intros Hout Hw Hn. apply nan_is_nan in Hn. subst w.
  rewrite (nth_returned _ _ _ _ _ _ _ _ Hout Hw). reflexivity.
Qed.

Lemma nan_elements_get_uninitialised_cells_witness :
  nth_error (values (Array [16.238899999999997; 4.0999999999999996])) 1
  = Some (cells_a mem_ones 1 * 3.1 + cells_b mem_ones 1).
Proof.
  apply (nan_elements_get_uninitialised_cells rt_mul mem_ones
           (PyList [1000; nan]) 3.1 "ccm" _ 1 nan).
  - vm_compute. reflexivity.
  - reflexivity.
  - reflexivity.
Defined.

(** X6. On an input without NaN two calls with the same arguments have the
    same outcome, whatever [np.empty] hands out. *)
Theorem numbers_make_the_call_deterministic
    rt mem mem' wavelength r_v optical_coeffs :
  (forall w, In w (Np.ravel (Np.asarray wavelength)) -> is_nan w = false) ->
  extinction_ratio_ccm rt mem wavelength r_v optical_coeffs
  = extinction_ratio_ccm rt mem' wavelength r_v optical_coeffs.
Proof.
  intros H. pose proof (numbers_inverse_microns _ H) as Hx.
  rewrite !call_outcome. cbv zeta.
  now rewrite !ratios_curve by assumption.
Qed.

Lemma numbers_make_the_call_deterministic_witness :
  extinction_ratio_ccm rt_mul mem_zeros (PyList [4000; 1000]) 3.1 "ccm"
  = extinction_ratio_ccm rt_mul mem_ones (PyList [4000; 1000]) 3.1 "ccm".
Proof.
  apply numbers_make_the_call_deterministic.
  intros w [<-|[<-|[]]]; reflexivity.
Defined.

(** X4. What the call returns at index [i] of a sequence is what it returns
    for wavelength [i] alone as a scalar (for a wavelength that is a
    number). *)
Theorem list_call_agrees_with_scalar_calls
    rt mem mem' ws r_v optical_coeffs vs i w :
  extinction_ratio_ccm rt mem (PyList ws) r_v optical_coeffs = Return (Array vs) ->
  nth_error ws i = Some w ->
  is_nan w = false ->
  exists v,
    nth_error vs i = Some v
    /\ extinction_ratio_ccm rt mem' (PyFloat w) r_v optical_coeffs
       = Return (Scalar v).
Proof.
  intros Hout Hw Hn.
  pose proof (nth_returned _ _ _ _ _ _ i w Hout Hw) as Hv.
  cbn [values] in Hv. rewrite element_ratio_number in Hv by assumption.
  eexists. split; [exact Hv|].
  assert (Hin : In (1e4 / w) (inverse_microns (PyList ws))).
  { unfold inverse_microns. apply (in_map (fun w => 1e4 / w)).
    exact (nth_error_In _ _ Hw). }
  apply call_returned in Hout as (Hr & Ho & _).
  rewrite call_outcome. cbv zeta.
  change (inverse_microns (PyFloat w)) with [1e4 / w].
  cbn [map Np.any existsb].
  rewrite (proj1 (any_map_false _ _) Hr _ Hin), !orb_false_r.
  replace (in_optical (1e4 / w) && negb (recognised optical_coeffs)) with false.
  - cbn [shaped_like ratios imap hd]. now rewrite element_ratio_number.
  - destruct (in_optical (1e4 / w)) eqn:E; [|reflexivity].
    destruct Ho as [c Hc]; [apply any_map_true; eauto|].
    unfold recognised. now rewrite Hc.
Qed.

Lemma list_call_agrees_with_scalar_calls_witness :
  exists v,
    nth_error [4.5401226791220104; 16.238899999999997] 1 = Some v
    /\ extinction_ratio_ccm rt_mul mem_ones (PyFloat 1000) 3.1 "ccm"
       = Return (Scalar v).
Proof.
  apply (list_call_agrees_with_scalar_calls rt_mul mem_zeros mem_ones
           [4000; 1000] 3.1 "ccm").
  - vm_compute. reflexivity.
  - reflexivity.
  - reflexivity.
Defined.

Lemma any_app (m n : list bool) : Np.any (m ++ n) = Np.any m || Np.any n.
Proof. apply existsb_app. Qed.

(** X5. On numbers, the call on a concatenation returns exactly when the
    calls on the two parts return, and then returns the concatenation of
    their results: a wavelength grid can be processed in chunks. *)
Theorem call_on_concatenation rt mem mem1 mem2 ws1 ws2 r_v optical_coeffs vs :
  (forall w, In w (ws1 ++ ws2) -> is_nan w = false) ->
  extinction_ratio_ccm rt mem (PyList (ws1 ++ ws2)) r_v optical_coeffs
  = Return (Array vs)
  <-> exists v1 v2,
        vs = v1 ++ v2
        /\ extinction_ratio_ccm rt mem1 (PyList ws1) r_v optical_coeffs
           = Return (Array v1)
        /\ extinction_ratio_ccm rt mem2 (PyList ws2) r_v optical_coeffs
           = Return (Array v2).
Proof.
  intros Hn.
  assert (H1 : forall w, In w (Np.ravel (Np.asarray (PyList ws1))) -> is_nan w = false)
    by (intros w Hw; apply Hn, in_or_app; auto).
  assert (H2 : forall w, In w (Np.ravel (Np.asarray (PyList ws2))) -> is_nan w = false)
    by (intros w Hw; apply Hn, in_or_app; auto).
  rewrite (call_numbers rt mem (PyList (ws1 ++ ws2)))
    by (apply numbers_inverse_microns; exact Hn).
  rewrite (call_numbers rt mem1 (PyList ws1))
    by (apply numbers_inverse_microns; exact H1).
  rewrite (call_numbers rt mem2 (PyList ws2))
    by (apply numbers_inverse_microns; exact H2).
  cbv zeta. unfold inverse_microns. cbn [Np.asarray Np.ravel shaped_like].
  rewrite !map_app, !any_app.
  destruct (Np.any (map out_of_range (map _ ws1))),
           (Np.any (map out_of_range (map _ ws2))),
           (Np.any (map in_optical (map _ ws1))),
           (Np.any (map in_optical (map _ ws2))),
           (recognised optical_coeffs); cbn;
    (split;
     [ try discriminate; intros [= <-]; eauto
     | intros (v1 & v2 & -> & E1 & E2); try discriminate;
       injection E1 as <-; injection E2 as <-; reflexivity ]).
Qed.

Lemma call_on_concatenation_witness :
  extinction_ratio_ccm rt_mul mem_zeros (PyList ([4000] ++ [1000])) 3.1 "ccm"
  = Return (Array [4.5401226791220104; 16.238899999999997])
  <-> exists v1 v2,
        [4.5401226791220104; 16.238899999999997] = v1 ++ v2
        /\ extinction_ratio_ccm rt_mul mem_ones (PyList [4000]) 3.1 "ccm"
           = Return (Array v1)
        /\ extinction_ratio_ccm rt_mul mem_zeros (PyList [1000]) 3.1 "ccm"
           = Return (Array v2).
Proof.
  apply call_on_concatenation.
  intros w [<-|[<-|[]]]; reflexivity.
Defined.

(** X9. When no element lies in the optical band the selector is never
    looked at: any two selectors, recognised or not, give the same outcome
    (so also on the empty sequence). *)
Theorem selector_unused_outside_optical
    rt mem wavelength r_v optical_coeffs optical_coeffs' :
  (forall x, In x (inverse_microns wavelength) -> in_optical x = false) ->
  extinction_ratio_ccm rt mem wavelength r_v optical_coeffs
  = extinction_ratio_ccm rt mem wavelength r_v optical_coeffs'.
Proof.
  intros H. rewrite !call_outcome. cbv zeta.
  rewrite (proj2 (any_map_false _ _) H). cbn [andb].
  destruct (Np.any (map out_of_range _)); [reflexivity|].
  apply f_equal, f_equal, imap_ext_in. intros i v Hv.
  unfold element_ratio, cell_a, cell_b.
  f_equal; [f_equal|];
    [apply step_a_not_optical|apply step_b_not_optical]; auto.
Qed.

Lemma selector_unused_outside_optical_witness :
  extinction_ratio_ccm rt_mul mem_zeros (PyList [2000; 1000]) 3.1 "bogus"
  = extinction_ratio_ccm rt_mul mem_zeros (PyList [2000; 1000]) 3.1 "ccm".
Proof.
  apply selector_unused_outside_optical.
  intros x [<-|[<-|[]]]; reflexivity.
Defined.

(** X10. [r_v] is not validated: whether the call raises, and what, does
    not depend on it. *)
Theorem raising_ignores_r_v rt mem wavelength r_v r_v' optical_coeffs e :
  extinction_ratio_ccm rt mem wavelength r_v optical_coeffs = Raise e
  <-> extinction_ratio_ccm rt mem wavelength r_v' optical_coeffs = Raise e.
Proof.
  rewrite !call_outcome. cbv zeta.
  destruct (Np.any (map out_of_range _)); [reflexivity|].
  destruct (Np.any (map in_optical _) && negb (recognised optical_coeffs));
    [reflexivity|]. split; discriminate.
Qed.

Lemma mul_nan_r a : a * nan = nan.
Proof.
  apply Prim2SF_inj. rewrite mul_spec. unfold SF64mul.
  change (Prim2SF nan) with S754_nan. now destruct (Prim2SF a).
Qed.

Lemma add_nan_l b : nan + b = nan.
Proof.
  apply Prim2SF_inj. rewrite add_spec. unfold SF64add.
  change (Prim2SF nan) with S754_nan. reflexivity.
Qed.

(** X11. With [r_v = NaN] every element of a returned result is NaN. *)
Theorem nan_r_v_gives_nan rt mem wavelength optical_coeffs out :
  extinction_ratio_ccm rt mem wavelength nan optical_coeffs = Return out ->
  Forall (fun v => v = nan) (values out).
Proof.
  intros Hout. apply Forall_forall. intros v Hv.
  apply In_nth_error in Hv as [i Hi].
  assert (Hlen : (i < List.length (Np.ravel (Np.asarray wavelength)))%nat).
  { apply call_returned in Hout as (_ & _ & ->).
    assert (i < List.length (values (shaped_like wavelength
              (ratios rt mem (tables_in_use optical_coeffs) nan
                 (inverse_microns wavelength)))))%nat
      by (apply nth_error_Some; congruence).
    destruct wavelength as [w|ws|d0 d1 dims data]; cbn in *; [assumption| |];
      unfold ratios, inverse_microns in H; cbn in H;
      now rewrite imap_length, length_map in H. }
  destruct (nth_error (Np.ravel (Np.asarray wavelength)) i) as [w|] eqn:Hw;
    [|apply nth_error_None in Hw; lia].
  rewrite (nth_returned _ _ _ _ _ _ _ _ Hout Hw) in Hi. injection Hi as <-.
  unfold element_ratio. now rewrite mul_nan_r, add_nan_l.
Qed.

Lemma nan_r_v_gives_nan_witness :
  Forall (fun v => v = nan) (values (Scalar nan)).
Proof.
  apply (nan_r_v_gives_nan rt_mul mem_zeros (PyFloat 1000) "ccm").
  vm_compute. reflexivity.
Defined.


(** * Properties of docs/conf.py *)

Module ConfFacts.
Import Conf.
Local Open Scope string_scope.

Lemma split1_spec sep s :
  (split1 sep s = [s]
   /\ forall ch, In ch (list_ascii_of_string s) -> ch <> sep)
  \/ exists a b,
       split1 sep s = [a; b] /\ s = a ++ String sep b
       /\ forall ch, In ch (list_ascii_of_string a) -> ch <> sep.
Proof.
  induction s as [|ch s IH]; cbn.
  - left. split; [reflexivity|]. intros ch [].
  - destruct (Ascii.eqb_spec ch sep) as [->|Hne].
    + right. exists "", s. repeat split. intros ch [].
    + destruct IH as [[-> Hno]|(a & b & -> & -> & Hno)].
      * left. split; [reflexivity|]. intros c [<-|Hc]; auto.
      * right. exists (String ch a), b. repeat split.
        intros c [<-|Hc]; auto.
Qed.

Lemma list_remove_spec x l :
  (list_remove x l = Raise (ValueError "list.remove(x): x not in list")
   /\ ~ In x l)
  \/ exists before after,
       l = (before ++ x :: after)%list /\ ~ In x before
       /\ list_remove x l = Return (before ++ after)%list.
Proof.
  induction l as [|y l IH]; cbn.
  - left. split; [reflexivity|]. intros [].
  - destruct (String.eqb_spec y x) as [->|Hne].
    + right. exists [], l. repeat split. intros [].
    + destruct IH as [[-> Hno]|(before & after & -> & Hno & ->)]; cbn.
      * left. split; [reflexivity|]. intros [E|E]; auto.
      * right. exists (y :: before), after. repeat split.
        intros [E|E]; auto.
Qed.

(** What a returning run leaves in [version], [release], [extensions]. *)
Lemma conf_returned env cfg :
  conf env = Return cfg ->
  exists v e,
    item0 (split1 "-" (sncosmo_version env)) = Return v
    /\ list_remove stock_viewcode (extensions env) = Return e
    /\ version cfg = v /\ release cfg = sncosmo_version env
    /\ cfg_extensions cfg = (e ++ ["viewcode"])%list
    /\ html_title cfg = "sncosmo v" ++ sncosmo_version env.
Proof.
  unfold conf. fold stock_viewcode.
  destruct (item0 _) as [v|e1]; cbn [bind]; [|discriminate].
  destruct (list_remove _ _) as [e|e2]; cbn [bind]; [|discriminate].
  intros [= <-]. exists v, e. repeat split.
Qed.

(** X12. After the file has run, [release] is the package's version string
    and [version] is its part before the first hyphen: it contains no
    hyphen, and [release] is [version] itself or [version], a hyphen and the
    rest; the HTML title is "sncosmo v" followed by [release]. *)
Theorem version_is_release_up_to_hyphen env cfg :
  conf env = Return cfg ->
  release cfg = sncosmo_version env
  /\ (forall ch, In ch (list_ascii_of_string (version cfg)) -> ch <> "-"%char)
  /\ (release cfg = version cfg
      \/ exists rest, release cfg = version cfg ++ "-" ++ rest)
  /\ html_title cfg = "sncosmo v" ++ release cfg.
Proof.
  intros H. apply conf_returned in H as (v & e & Hv & _ & -> & -> & _ & ->).
  split; [reflexivity|].
  destruct (split1_spec "-" (sncosmo_version env))
    as [[E Hno]|(a & b & E & Hs & Hno)]; rewrite E in Hv; injection Hv as <-.
  - repeat split; auto.
  - repeat split; auto. right. exists b. exact Hs.
Qed.

Lemma version_is_release_up_to_hyphen_witness :
  exists cfg,
    conf example_env = Return cfg
    /\ version cfg = "0.3.dev"
    /\ release cfg = sncosmo_version example_env
    /\ (forall ch, In ch (list_ascii_of_string (version cfg)) -> ch <> "-"%char)
    /\ (release cfg = version cfg
        \/ exists rest, release cfg = version cfg ++ "-" ++ rest)
    /\ html_title cfg = "sncosmo v" ++ release cfg.
Proof.
  eexists. split; [vm_compute; reflexivity|]. split; [reflexivity|].
  apply (version_is_release_up_to_hyphen example_env). vm_compute. reflexivity.
Defined.

(** X13. The file runs to its end exactly when the inherited [extensions]
    contain "sphinx.ext.viewcode"; otherwise [extensions.remove] raises
    [ValueError] and nothing is configured. *)
Theorem conf_loads_iff_stock_viewcode env :
  ((exists cfg, conf env = Return cfg) <-> In stock_viewcode (extensions env))
  /\ (conf env = Raise (ValueError "list.remove(x): x not in list")
      <-> ~ In stock_viewcode (extensions env)).
Proof.
  unfold conf. fold stock_viewcode.
  destruct (split1_spec "-" (sncosmo_version env))
    as [[-> _]|(a & b & -> & _)]; cbn [item0 bind];
    (destruct (list_remove_spec stock_viewcode (extensions env))
      as [[-> Hno]|(before & after & E & Hno & ->)]; cbn [bind];
     [ split; split; try tauto; intros [cfg H]; discriminate
     | assert (In stock_viewcode (extensions env))
         by (rewrite E; apply in_or_app; right; left; reflexivity);
       split; split; try tauto; try discriminate; eauto ]).
Qed.

(** X14. After the file has run, [extensions] is the inherited list without
    its first "sphinx.ext.viewcode", all other entries in their order,
    followed by "viewcode". *)
Theorem stock_viewcode_is_replaced env cfg :
  conf env = Return cfg ->
  exists before after,
    extensions env = (before ++ stock_viewcode :: after)%list
    /\ ~ In stock_viewcode before
    /\ cfg_extensions cfg = (before ++ after ++ ["viewcode"])%list.
Proof.
  intros H. apply conf_returned in H as (v & e & _ & He & _ & _ & -> & _).
  destruct (list_remove_spec stock_viewcode (extensions env))
    as [[E _]|(before & after & E & Hno & E')]; rewrite He in *; [discriminate|].
  injection E' as ->. exists before, after. now rewrite <- app_assoc.
Qed.

Lemma stock_viewcode_is_replaced_witness :
  exists before after,
    extensions example_env = (before ++ stock_viewcode :: after)%list
    /\ ~ In stock_viewcode before
    /\ ["sphinx.ext.autodoc"; "numpydoc"; "viewcode"]
       = (before ++ after ++ ["viewcode"])%list.
Proof.
  eapply (stock_viewcode_is_replaced example_env
            {| cfg_intersphinx_mapping := _; cfg_exclude_patterns := _;
               cfg_rst_epilog := _; project := _; author := _; copyright := _;
               version := _; release := _; cfg_sys_path := _;
               cfg_extensions := ["sphinx.ext.autodoc"; "numpydoc"; "viewcode"];
               html_theme_options := _; html_sidebars := _; html_favicon := _;
               html_title := _; htmlhelp_basename := _; cfg_templates_path := _;
               html_static_path := _; html_style := _; latex_documents := _;
               man_pages := _ |}).
  vm_compute. reflexivity.
Defined.

(** X15. The file changes the lists of [astropy.sphinx.conf] in place, so
    it cannot be run twice on one import: when the inherited [extensions]
    held "sphinx.ext.viewcode" once, a second run raises [ValueError]. *)
Theorem second_run_raises env cfg :
  conf env = Return cfg ->
  count_occ string_dec (extensions env) stock_viewcode = 1%nat ->
  conf (second_import env cfg)
  = Raise (ValueError "list.remove(x): x not in list").
Proof.
  intros H Hc. apply conf_returned in H as (v & e & _ & He & _ & _ & Hext & _).
  assert (Hgone : ~ In stock_viewcode (cfg_extensions cfg)).
  { destruct (list_remove_spec stock_viewcode (extensions env))
      as [[E _]|(before & after & E & Hno & E')]; rewrite He in *; [discriminate|].
    injection E' as ->. rewrite E, count_occ_app in Hc. cbn in Hc.
    destruct (string_dec stock_viewcode stock_viewcode); [|congruence].
    assert (Ha : count_occ string_dec after stock_viewcode = 0%nat) by lia.
    apply count_occ_not_In in Ha.
    rewrite Hext, !in_app_iff. cbn. intros [[Hb|Hb]|[Hb|[]]]; auto.
    discriminate. }
  unfold conf. fold stock_viewcode.
  destruct (split1_spec "-" (sncosmo_version (second_import env cfg)))
    as [[-> _]|(a & b & -> & _)]; cbn [item0 bind];
    change (extensions (second_import env cfg)) with (cfg_extensions cfg);
    (destruct (list_remove_spec stock_viewcode (cfg_extensions cfg))
      as [[-> _]|(before & after & E & _)]; [reflexivity|]);
    exfalso; apply Hgone; rewrite E; apply in_or_app; right; left; reflexivity.
Qed.

Lemma second_run_raises_witness :
  exists cfg,
    conf example_env = Return cfg
    /\ conf (second_import example_env cfg)
       = Raise (ValueError "list.remove(x): x not in list").
Proof.
  eexists. split; [vm_compute; reflexivity|].
  apply second_run_raises; vm_compute; reflexivity.
Defined.

End ConfFacts.
